(** * review.py: the diff-to-review pipeline

    A shallow embedding of [src/review.py] and the properties its
    specification states about it.

    Python strings are modelled as [string] (characters are code points
    below 256), Python integers as [Z], exceptions as values of [exn]. *)

From Stdlib Require Import Bool List ZArith Lia Ascii String DecimalString.
From Stdlib Require DecimalPos DecimalFacts.
Import ListNotations.
Open Scope string_scope.
Open Scope list_scope.

Set Implicit Arguments.
Set Warnings "-register-all".

(** ** Python strings *)

Module PyStr.

(** The newline and the double quote, which string literals cannot hold. *)
Definition nl : string := String "010"%char EmptyString.
Definition dq : string := String "034"%char EmptyString.

(** [str.isspace] on one character, for code points below 256. *)
Definition isspace (c : ascii) : bool :=
  let n := nat_of_ascii c in
  ((9 <=? n) && (n <=? 13) || (28 <=? n) && (n <=? 32)
   || (n =? 133) || (n =? 160))%nat.

Section Strip.
Variable space : ascii -> bool.

Fixpoint lstrip_by (s : string) : string :=
  match s with
  | EmptyString => EmptyString
  | String c r => if space c then lstrip_by r else s
  end.

Fixpoint rstrip_by (s : string) : string :=
  match s with
  | EmptyString => EmptyString
  | String c r =>
      match rstrip_by r with
      | EmptyString => if space c then EmptyString else String c EmptyString
      | r' => String c r'
      end
  end.

Definition strip_by (s : string) : string := rstrip_by (lstrip_by s).

Fixpoint all_by (s : string) : bool :=
  match s with
  | EmptyString => true
  | String c r => space c && all_by r
  end.
End Strip.

(** [s.strip()] *)
Definition strip (s : string) : string := strip_by isspace s.

(** [s.split(sep)] for a one-character separator: never the empty list. *)
Fixpoint split (sep : ascii) (s : string) : list string :=
  match s with
  | EmptyString => [EmptyString]
  | String c r =>
      if Ascii.eqb c sep then EmptyString :: split sep r
      else match split sep r with
           | h :: t => String c h :: t
           | [] => [String c EmptyString]
           end
  end.

(** Truth value of a string: [bool(s)]. *)
Definition nonempty (s : string) : bool :=
  match s with EmptyString => false | String _ _ => true end.

(** A string made of white space only (the empty one included). *)
Definition isblank (s : string) : bool := all_by isspace s.

(** [str(n)] for an integer of at most 4300 digits, the default cap of
    the interpreter, above which [str] raises instead. *)
Definition of_Z (n : Z) : string := NilZero.string_of_int (Z.to_int n).

(** [''.join(parts)] *)
Definition join (parts : list string) : string := String.concat EmptyString parts.

End PyStr.

(** ** fnmatch

    [fnmatch.fnmatch] of the Python library (3.9 and later) on a POSIX
    system, where [os.path.normcase] is the identity.  [translate] follows
    [fnmatch.translate]; instead of the text of a regular expression it
    produces the list of its pieces, and [matches] is [re.match] on such a
    list, anchored at both ends. *)

Module Fnmatch.

Definition chars := list ascii.

Definition lt (a b : ascii) : bool := (nat_of_ascii a <? nat_of_ascii b)%nat.
Definition le (a b : ascii) : bool := (nat_of_ascii a <=? nat_of_ascii b)%nat.

(** One piece of the translated pattern. [TSet false []] is [(?!)], which
    matches nothing; [TSet true []] is [.], which matches any character. *)
Inductive tok : Type :=
| TStar                                         (* .*  *)
| TAny                                          (* .   *)
| TLit (c : ascii)                              (* re.escape(c) *)
| TSet (negate : bool) (ranges : list (ascii * ascii)).

(** *** Bracket expressions *)

(** [pat.find(c)]: index of the first occurrence. *)
Fixpoint find (c : ascii) (s : chars) : option nat :=
  match s with
  | [] => None
  | d :: r => if Ascii.eqb d c then Some 0%nat else option_map S (find c r)
  end.

(** The scan for the closing bracket: [rest] is the pattern after the
    opening bracket (at index [i]); the result is [j - i]. *)
Definition close_index (rest : chars) : option nat :=
  let j1 := match rest with "!"%char :: _ => 1%nat | _ => 0%nat end in
  let j2 := match skipn j1 rest with "]"%char :: _ => S j1 | _ => j1 end in
  option_map (Nat.add j2) (find "]"%char (skipn j2 rest)).

(** The [while True] loop that cuts [stuff] at the hyphens that stand for
    a range: [skip] characters are taken before a hyphen counts again
    ([k = i+1] or [i+2] at the start, [k = k+3] after a hyphen), [cur] is
    the chunk being read. The last chunk may be empty. *)
Fixpoint split_chunks (skip : nat) (cur s : chars) : list chars :=
  match s with
  | [] => [cur]
  | c :: r =>
      match skip with
      | S n => split_chunks n (cur ++ [c]) r
      | O => if Ascii.eqb c "-"%char then cur :: split_chunks 2 [] r
             else split_chunks 0 (cur ++ [c]) r
      end
  end.

(** [if chunk: chunks.append(chunk) else: chunks[-1] += '-'] *)
Definition close_chunks (cs : list chars) : list chars :=
  match rev cs with
  | [] :: prev :: before => rev before ++ [prev ++ ["-"%char]]
  | _ => cs
  end.

(** The loop that removes empty ranges, from the last chunk to the
    second. *)
Fixpoint drop_empty_ranges (cs : list chars) : list chars :=
  match cs with
  | [] => []
  | c :: rest =>
      match drop_empty_ranges rest with
      | [] => [c]
      | d :: rest' =>
          if lt (hd "000"%char d) (last c "000"%char)
          then (removelast c ++ tl d) :: rest'
          else c :: d :: rest'
      end
  end.

Definition lits (s : chars) : list (ascii * ascii) := map (fun c => (c, c)) s.

(** What ['-'.join(chunks)] denotes inside brackets: the characters of the
    chunks, and a range from the last character of a chunk to the first
    of the next. Only the last chunk can be left with one character, so
    the case of an empty [cur] before further chunks does not arise. *)
Fixpoint set_items (cur : chars) (rest : list chars) : list (ascii * ascii) :=
  match rest with
  | [] => lits cur
  | d :: rest' =>
      match cur with
      | [] => ("-"%char, "-"%char) :: set_items d rest'
      | _ => lits (removelast cur)
               ++ (last cur "000"%char, hd "-"%char d) :: set_items (tl d) rest'
      end
  end.

(** The set that [stuff] denotes, from its chunks: a leading [!] negates
    it; after [^] a hyphen is an ordinary character. *)
Definition set_of_chunks (cs : list chars) : tok :=
  match cs with
  | [] => TSet false []
  | ("!"%char :: c0) :: rest =>
      match c0, rest with
      | [], d :: rest' => TSet true (("-"%char, "-"%char) :: set_items d rest')
      | _, _ => TSet true (set_items c0 rest)
      end
  | c0 :: rest => TSet false (set_items c0 rest)
  end.

Definition set_of_stuff (stuff : chars) : tok :=
  let skip := match stuff with "!"%char :: _ => 2%nat | _ => 1%nat end in
  set_of_chunks (drop_empty_ranges (close_chunks (split_chunks skip [] stuff))).

(** *** The pattern *)

(** Consecutive stars are compressed into one. *)
Definition add_star (res : list tok) : list tok :=
  match res with
  | TStar :: _ => res
  | _ => TStar :: res
  end.

(** The main loop of [translate]; [skip] counts the characters of a
    bracket expression that the loop jumps over ([i = j+1]). *)
Fixpoint translate_from (skip : nat) (pat : chars) : list tok :=
  match pat with
  | [] => []
  | c :: rest =>
      match skip with
      | S n => translate_from n rest
      | O =>
          if Ascii.eqb c "*"%char then add_star (translate_from 0 rest)
          else if Ascii.eqb c "?"%char then TAny :: translate_from 0 rest
          else if Ascii.eqb c "["%char then
            match close_index rest with
            | None => TLit "["%char :: translate_from 0 rest
            | Some j => set_of_stuff (firstn j rest) :: translate_from (S j) rest
            end
          else TLit c :: translate_from 0 rest
      end
  end.

Definition translate (pat : string) : list tok :=
  translate_from 0 (list_ascii_of_string pat).

(** *** Matching *)

Definition in_range (c : ascii) (r : ascii * ascii) : bool :=
  le (fst r) c && le c (snd r).

(** Whether a piece other than the star accepts the character [c]. *)
Definition accepts (t : tok) (c : ascii) : bool :=
  match t with
  | TStar => false
  | TAny => true
  | TLit d => Ascii.eqb d c
  | TSet negate ranges => xorb negate (existsb (in_range c) ranges)
  end.

Fixpoint matches (ts : list tok) (s : chars) : bool :=
  match ts with
  | [] => match s with [] => true | _ :: _ => false end
  | TStar :: ts' =>
      (fix star (s : chars) : bool :=
         matches ts' s || match s with [] => false | _ :: s' => star s' end) s
  | t :: ts' =>
      match s with
      | [] => false
      | c :: s' => accepts t c && matches ts' s'
      end
  end.

(** [fnmatch.fnmatch(name, pat)] *)
Definition fnmatch (name pat : string) : bool :=
  matches (translate pat) (list_ascii_of_string name).

(** *** The meaning of a translated pattern, as a relation

    A star stands for any run of characters, every other piece for one
    character it accepts. *)
Inductive denotes : list tok -> chars -> Prop :=
| denotes_nil : denotes [] []
| denotes_star ts run s : denotes ts s -> denotes (TStar :: ts) (run ++ s)
| denotes_one t ts c s :
    accepts t c = true -> denotes ts s -> denotes (t :: ts) (c :: s).

(** [name] matches the shell pattern [pat]. *)
Definition glob (pat name : string) : Prop :=
  denotes (translate pat) (list_ascii_of_string name).

End Fnmatch.

(** [from fnmatch import fnmatch as minimatch] *)
Definition minimatch : string -> string -> bool := Fnmatch.fnmatch.

(** ** Exceptions and results *)

Inductive exn : Type :=
| TypeError
| ValueError
| KeyError
| OverflowError
| ExternalError (origin : string).

Inductive result (A : Type) : Type :=
| Ok (a : A)
| Raise (e : exn).

Arguments Ok {A} a.
Arguments Raise {A} e.

Definition rbind {A B : Type} (r : result A) (k : A -> result B) : result B :=
  match r with
  | Ok a => k a
  | Raise e => Raise e
  end.

Declare Scope result_scope.
Delimit Scope result_scope with result.
Notation "x <- r ;; k" := (rbind r (fun x => k))
  (at level 61, r at next level, right associativity) : result_scope.

(** ** Decoded JSON values

    What [json.loads] returns: [None], [bool], [int], [float], [str],
    [list] and [dict]. A [dict] is the list of its items, in order, with
    distinct keys. *)

(** A [float]: not a number, an infinity, or the finite value
    [mantissa * 2 ^ exponent]. *)
Inductive pyfloat : Type :=
| FNan
| FInf (negative : bool)
| FFinite (mantissa exponent : Z).

Inductive json : Type :=
| JNull
| JBool (b : bool)
| JInt (n : Z)
| JFloat (x : pyfloat)
| JStr (s : string)
| JArr (items : list json)
| JObj (members : list (string * json)).

Module Py.

(** [bool(v)] *)
Definition truthy (v : json) : bool :=
  match v with
  | JNull => false
  | JBool b => b
  | JInt n => negb (n =? 0)%Z
  | JFloat (FFinite m _) => negb (m =? 0)%Z
  | JFloat _ => true
  | JStr s => PyStr.nonempty s
  | JArr items => match items with [] => false | _ :: _ => true end
  | JObj members => match members with [] => false | _ :: _ => true end
  end.

(** [d.get(key)] on the items of a [dict]. *)
Fixpoint lookup (key : string) (members : list (string * json)) : option json :=
  match members with
  | [] => None
  | (k, v) :: rest => if String.eqb k key then Some v else lookup key rest
  end.

(** [v[key]] for a string [key]. *)
Definition subscript (v : json) (key : string) : result json :=
  match v with
  | JObj members =>
      match lookup key members with
      | Some x => Ok x
      | None => Raise KeyError
      end
  | _ => Raise TypeError
  end.

(** [list(iter(v))]: what a [for] loop over [v] visits. *)
Definition iterate (v : json) : result (list json) :=
  match v with
  | JArr items => Ok items
  | JStr s => Ok (map (fun c => JStr (String c EmptyString)) (list_ascii_of_string s))
  | JObj members => Ok (map (fun kv => JStr (fst kv)) members)
  | _ => Raise TypeError
  end.

Definition isdigit (c : ascii) : bool :=
  let n := nat_of_ascii c in ((48 <=? n) && (n <=? 57))%nat.

Definition digit_value (c : ascii) : Z := Z.of_nat (nat_of_ascii c) - 48.

(** Decimal digits, with single underscores between digits. *)
Fixpoint digits (acc : Z) (s : string) : option Z :=
  match s with
  | EmptyString => Some acc
  | String c rest =>
      if isdigit c then digits (10 * acc + digit_value c) rest
      else if Ascii.eqb c "_"%char then
        match rest with
        | String d _ => if isdigit d then digits acc rest else None
        | EmptyString => None
        end
      else None
  end.

Definition unsigned (s : string) : option Z :=
  match s with
  | String c _ => if isdigit c then digits 0 s else None
  | EmptyString => None
  end.

(** The white space that [int] skips at both ends of a string: unlike
    [str.strip], not the separators 28 to 31. *)
Definition int_space (c : ascii) : bool :=
  let n := nat_of_ascii c in
  ((9 <=? n) && (n <=? 13) || (n =? 32) || (n =? 133) || (n =? 160))%nat.

(** The cap of the interpreter on the number of digits of an integer that
    is read from, or written as, decimal text, at its default. *)
Definition max_str_digits : Z := 4300.

(** The number of digits in a string. *)
Fixpoint digit_count (s : string) : Z :=
  match s with
  | EmptyString => 0
  | String c rest => (if isdigit c then 1 else 0) + digit_count rest
  end.

(** [int(s)] for a string, in base ten; [None] stands for [ValueError],
    which is also raised for a number of more digits than the cap. *)
Definition int_of_str (s : string) : option Z :=
  let t := PyStr.strip_by int_space s in
  if (max_str_digits <? digit_count t)%Z then None
  else match t with
       | String "+"%char rest => unsigned rest
       | String "-"%char rest => option_map Z.opp (unsigned rest)
       | _ => unsigned t
       end.

(** [int(v)] *)
Definition int (v : json) : result Z :=
  match v with
  | JNull => Raise TypeError
  | JBool b => Ok (if b then 1 else 0)%Z
  | JInt n => Ok n
  | JFloat FNan => Raise ValueError
  | JFloat (FInf _) => Raise OverflowError
  | JFloat (FFinite m e) =>
      Ok (if (0 <=? e)%Z then m * 2 ^ e else Z.quot m (2 ^ (- e)))%Z
  | JStr s =>
      match int_of_str s with
      | Some n => Ok n
      | None => Raise ValueError
      end
  | JArr _ => Raise TypeError
  | JObj _ => Raise TypeError
  end.

(** [a or b] for an optional string [a] and a string [b]. *)
Definition or_str (a : option string) (b : string) : string :=
  match a with
  | Some s => if PyStr.nonempty s then s else b
  | None => b
  end.

(** [bool(a)] for an optional string. *)
Definition truthy_str (a : option string) : bool :=
  match a with
  | Some s => PyStr.nonempty s
  | None => false
  end.

(** [str(a)] for an optional string and an optional integer. *)
Definition str_of_opt (a : option string) : string :=
  match a with Some s => s | None => "None" end.

Definition str_of_optZ (a : option Z) : string :=
  match a with Some n => PyStr.of_Z n | None => "None" end.

End Py.

(** ** The parsed diff, as [parse_diff] hands it over *)

Module Change.
Record t : Type := mk { ln : option Z; ln2 : option Z; content : string }.
End Change.

Module Chunk.
Record t : Type := mk { content : string; changes : list Change.t }.
End Chunk.

Module File.
Record t : Type := mk { to : option string; chunks : list Chunk.t }.
End File.

Record PRDetails : Type := {
  owner : string;
  repo : string;
  pull_number : Z;
  title : string;
  description : option string
}.

(** A review comment: the dictionary with the keys [body], [path] and
    [line] that [create_comment] builds. *)
Record comment : Type := {
  body : json;
  path : option string;
  line : Z
}.

(** The path that marks a deleted file. *)
Definition dev_null : string := "/dev/null".

(** [file.to == "/dev/null"] *)
Definition is_dev_null (to : option string) : bool :=
  match to with
  | Some p => String.eqb p dev_null
  | None => false
  end.

(** ** create_prompt *)

(** [c.ln if c.ln else c.ln2] *)
Definition change_line (c : Change.t) : option Z :=
  match Change.ln c with
  | Some n => if (n =? 0)%Z then Change.ln2 c else Some n
  | None => Change.ln2 c
  end.

(** [f'{c.ln if c.ln else c.ln2} {c.content}'] *)
Definition change_text (c : Change.t) : string :=
  PyStr.join [Py.str_of_optZ (change_line c); " "; Change.content c].

Definition create_prompt (file : File.t) (chunk : Chunk.t) (pr_details : PRDetails)
  : string :=
  let nl := PyStr.nl in
  let dq := PyStr.dq in
  PyStr.join
    [ "Your task is to review pull requests. Instructions:"; nl;
      "- Provide the response in the following JSON format: {'reviews': [{";
        dq; "lineNumber"; dq; ": <line_number>, "; dq; "reviewComment"; dq; ": ";
        dq; "<review comment>"; dq; "}]}"; nl;
      "- Do not give positive comments or compliments."; nl;
      "- Provide comments and suggestions ONLY if there is something to improve, otherwise ";
        dq; "reviews"; dq; " should be an empty array."; nl;
      "- Write the comment in GitHub Markdown format."; nl;
      "- Use the given description only for the overall context and only comment the code."; nl;
      "- IMPORTANT: NEVER suggest adding comments to the code."; nl;
      "Review the following code diff in the file "; dq; Py.str_of_opt (File.to file); dq;
        " and take the pull request title and description into account when writing the response.";
        nl;
      "Pull request title: "; title pr_details; nl;
      "Pull request description:"; nl;
      "---"; nl;
      Py.str_of_opt (description pr_details); nl;
      "---"; nl;
      "Git diff to review:"; nl;
      "```diff"; nl; Chunk.content chunk; nl;
      PyStr.join (map change_text (Chunk.changes chunk)); nl;
      "```"; nl ].

(** ** create_comment *)

(** The dictionary built for one item of the reply. *)
Definition comment_of (file : File.t) (ai_response : json) : result comment :=
  (b <- Py.subscript ai_response "reviewComment" ;;
   l <- Py.subscript ai_response "lineNumber" ;;
   n <- Py.int l ;;
   Ok {| body := b; path := File.to file; line := n |})%result.

(** The list comprehension, over the items the loop visits: the condition
    [if file.to] is tested before the dictionary is built. *)
Fixpoint comments_of (file : File.t) (items : list json) : result (list comment) :=
  match items with
  | [] => Ok []
  | ai_response :: rest =>
      if Py.truthy_str (File.to file) then
        (c <- comment_of file ai_response ;;
         cs <- comments_of file rest ;;
         Ok (c :: cs))%result
      else comments_of file rest
  end.

Definition create_comment (file : File.t) (chunk : Chunk.t) (ai_responses : json)
  : result (list comment) :=
  (items <- Py.iterate ai_responses ;; comments_of file items)%result.

(** ** The path filter of [main] *)

(** [os.getenv('exclude', '').split(',')], each pattern stripped. *)
Definition exclude_patterns (exclude : option string) : list string :=
  map PyStr.strip
      (PyStr.split ","%char (match exclude with Some s => s | None => EmptyString end)).

(** [any(minimatch(file.to or '', pattern) for pattern in exclude_patterns)] *)
Definition is_excluded (to : option string) (patterns : list string) : bool :=
  existsb (fun pattern => minimatch (Py.or_str to EmptyString) pattern) patterns.

Definition filtered_diff (parsed_diff : list File.t) (patterns : list string)
  : list File.t :=
  filter (fun file => negb (is_excluded (File.to file) patterns)) parsed_diff.

(** ** The run: collaborators, trace and state *)

(** What one call of [openai_api.create_chat_completion] comes to: the call,
    or reading the text out of its response, raises, or the text of the
    reply. *)
Inductive completion : Type :=
| ChatRaises
| ChatContent (content : string).

(** The code outside this file that the run calls. The language model is
    indexed by the number of calls made before, so that it may answer the
    same prompt differently; [json_loads] is [None] where [json.loads]
    raises. *)
Record collaborators : Type := {
  create_chat_completion : nat -> string -> completion;
  json_loads : string -> option json;
  parse_diff : string -> result (list File.t);
  create_review : list comment -> result unit
}.

(** What the run does to the outside, in order. *)
Inductive event : Type :=
| EvPrint (message : string)
| EvLogError                       (* print("Error:", error) *)
| EvChat (prompt : string)
| EvParse (diff : string)
| EvSubmit (owner repo : string) (pull_number : Z) (comments : list comment).

Record state : Type := {
  calls : nat;                     (* calls of the language model so far *)
  trace : list event
}.

Definition initial : state := {| calls := 0; trace := [] |}.

Definition emit (e : event) (st : state) : state :=
  {| calls := calls st; trace := trace st ++ [e] |}.

(** A computation that reads and extends the state and returns or raises. *)
Definition M (A : Type) : Type := state -> result A * state.

Definition ret {A : Type} (a : A) : M A := fun st => (Ok a, st).

Definition lift {A : Type} (r : result A) : M A := fun st => (r, st).

Definition bind {A B : Type} (m : M A) (k : A -> M B) : M B :=
  fun st =>
    match m st with
    | (Ok a, st') => k a st'
    | (Raise e, st') => (Raise e, st')
    end.

Definition say (e : event) : M unit := fun st => (Ok tt, emit e st).

Declare Scope run_scope.
Delimit Scope run_scope with run.
Notation "x <- m ;; k" := (bind m (fun x => k))
  (at level 61, m at next level, right associativity) : run_scope.
Notation "m ;;; k" := (bind m (fun _ => k))
  (at level 61, right associativity) : run_scope.

(** [content.strip() or "{}"]: the text that [get_ai_response] decodes. *)
Definition reply_text (content : string) : string :=
  let stripped := PyStr.strip content in
  if PyStr.nonempty stripped then stripped else "{}".

Section Pipeline.

Variable w : collaborators.

(** *** get_ai_response *)

(** The body of the [try]: the reply, stripped, or the empty object when
    nothing is left, decoded, and its [reviews] entry. *)
Definition decode_reviews (content : string) : result json :=
  match json_loads w (reply_text content) with
  | None => Raise ValueError
  | Some v => Py.subscript v "reviews"
  end.

(** [None] is [JNull]: the function returns it on any exception. *)
Definition get_ai_response (prompt : string) : M json :=
  fun st =>
    let st1 := {| calls := S (calls st); trace := trace st ++ [EvChat prompt] |} in
    match create_chat_completion w (calls st) prompt with
    | ChatRaises => (Ok JNull, emit EvLogError st1)
    | ChatContent content =>
        match decode_reviews content with
        | Ok reviews => (Ok reviews, st1)
        | Raise _ => (Ok JNull, emit EvLogError st1)
        end
    end.

(** *** analyze_code *)

(** The body of the inner loop, for one chunk; [comments] is the
    accumulator. *)
Definition analyze_chunk (file : File.t) (pr_details : PRDetails)
           (chunk : Chunk.t) (comments : list comment) : M (list comment) :=
  (let prompt := create_prompt file chunk pr_details in
   ai_response <- get_ai_response prompt ;;
   if Py.truthy ai_response then
     new_comments <- lift (create_comment file chunk ai_response) ;;
     ret (match new_comments with
          | [] => comments
          | _ :: _ => comments ++ new_comments
          end)
   else ret comments)%run.

Fixpoint analyze_chunks (file : File.t) (pr_details : PRDetails)
         (chunks : list Chunk.t) (comments : list comment) : M (list comment) :=
  match chunks with
  | [] => ret comments
  | chunk :: rest =>
      (comments' <- analyze_chunk file pr_details chunk comments ;;
       analyze_chunks file pr_details rest comments')%run
  end.

Fixpoint analyze_files (pr_details : PRDetails) (files : list File.t)
         (comments : list comment) : M (list comment) :=
  match files with
  | [] => ret comments
  | file :: rest =>
      if is_dev_null (File.to file) then analyze_files pr_details rest comments
      else
        (comments' <- analyze_chunks file pr_details (File.chunks file) comments ;;
         analyze_files pr_details rest comments')%run
  end.

Definition analyze_code (parsed_diff : list File.t) (pr_details : PRDetails)
  : M (list comment) :=
  analyze_files pr_details parsed_diff [].

(** *** create_review_comment *)

Definition create_review_comment (owner repo : string) (pull_number : Z)
           (comments : list comment) : M unit :=
  (say (EvSubmit owner repo pull_number comments) ;;;
   lift (create_review w comments))%run.

(** *** main *)

(** What [main] has read when it starts: the details of the pull request,
    the action of the event, the diff of either kind of event, and the
    environment. A run in which one of these reads raises ends there,
    before any of the steps below. *)
Record trigger : Type := {
  pr_details : PRDetails;
  action : string;
  event_name : option string;      (* GITHUB_EVENT_NAME *)
  opened_diff : string;            (* get_diff(owner, repo, pull_number) *)
  synchronize_diff : string;       (* the joined unified_diff of the two commits *)
  exclude : option string          (* the variable [exclude] *)
}.

(** The diff of a supported event. *)
Definition event_diff (t : trigger) : option string :=
  if String.eqb (action t) "opened" then Some (opened_diff t)
  else if String.eqb (action t) "synchronize" then Some (synchronize_diff t)
  else None.

Definition main (t : trigger) : M unit :=
  match event_diff t with
  | None =>
      say (EvPrint (PyStr.join ["Unsupported event: "; Py.str_of_opt (event_name t)]))
  | Some diff =>
      if negb (PyStr.nonempty diff) then say (EvPrint "No diff found")
      else
        (say (EvParse diff) ;;;
         parsed_diff <- lift (parse_diff w diff) ;;
         let patterns := exclude_patterns (exclude t) in
         let filtered := filtered_diff parsed_diff patterns in
         comments <- analyze_code filtered (pr_details t) ;;
         match comments with
         | [] => ret tt
         | _ :: _ =>
             create_review_comment (owner (pr_details t)) (repo (pr_details t))
                                   (pull_number (pr_details t)) comments
         end)%run
  end.

End Pipeline.

(** ** Notions the properties are stated with *)

(** A reply from which [get_ai_response] gets no [reviews]: the call
    raises, the text is not JSON, or the decoded value is not an object
    with the key [reviews]. *)
Definition undecodable (w : collaborators) (c : completion) : bool :=
  match c with
  | ChatRaises => true
  | ChatContent content =>
      match json_loads w (reply_text content) with
      | None => true
      | Some (JObj members) =>
          match Py.lookup "reviews" members with
          | Some _ => false
          | None => true
          end
      | Some _ => true
      end
  end.

(** The comment lists handed to [create_review_comment], in order. *)
Definition submissions (tr : list event) : list (list comment) :=
  flat_map (fun e => match e with
                     | EvSubmit _ _ _ comments => [comments]
                     | _ => []
                     end) tr.

(** The prompts sent to the language model, in order. *)
Definition prompts (tr : list event) : list string :=
  flat_map (fun e => match e with EvChat prompt => [prompt] | _ => [] end) tr.

(** The diffs handed to [parse_diff], in order. *)
Definition parses (tr : list event) : list string :=
  flat_map (fun e => match e with EvParse diff => [diff] | _ => [] end) tr.

(** [st'] comes after [st] in a run that handed nothing to the submission
    collaborator in between. *)
Definition quiet (st st' : state) : Prop :=
  exists tail, trace st' = trace st ++ tail /\ submissions tail = [].

(** The accumulator [comments] of [main], when the run gets as far as the
    end of [analyze_code]. *)
Definition accumulated (w : collaborators) (t : trigger) : option (list comment) :=
  match event_diff t with
  | None => None
  | Some diff =>
      if negb (PyStr.nonempty diff) then None
      else match parse_diff w diff with
           | Raise _ => None
           | Ok parsed_diff =>
               match fst (analyze_code w
                            (filtered_diff parsed_diff (exclude_patterns (exclude t)))
                            (pr_details t) (emit (EvParse diff) initial)) with
               | Ok comments => Some comments
               | Raise _ => None
               end
           end
  end.

(** ** Sample runs *)

Module Sample.

Definition hunk : Chunk.t :=
  Chunk.mk "@@ -0,0 +1 @@" [Change.mk (Some 1%Z) None "+x = compute()"].

Definition added : File.t := File.mk (Some "src/a.py") [hunk].
Definition deleted : File.t := File.mk (Some dev_null) [hunk].
Definition unnamed : File.t := File.mk None [hunk].
Definition empty_path : File.t := File.mk (Some EmptyString) [hunk].

Definition pr : PRDetails :=
  {| owner := "octo"; repo := "demo"; pull_number := 7;
     title := "Add a"; description := None |}.

(** One item of a reply in the schema of the prompt. *)
Definition item (line_number : json) (text : string) : json :=
  JObj [("lineNumber", line_number); ("reviewComment", JStr text)].

(** A language model that always answers [reply], with a decoder that
    knows what this one text decodes to. *)
Definition service (reply : string) (decoded : option json) : collaborators :=
  {| create_chat_completion := fun _ _ => ChatContent reply;
     json_loads := fun s => if String.eqb s (reply_text reply) then decoded else None;
     parse_diff := fun _ => Ok [added];
     create_review := fun _ => Ok tt |}.

Definition quoted (s : string) : string := PyStr.join [PyStr.dq; s; PyStr.dq].

(** The reply {"reviews": [{"lineNumber": KEY, "reviewComment": TEXT}]}
    and its like, as text and decoded. *)
Definition reply_of (key1 value1 key2 value2 : string) : string :=
  PyStr.join ["{"; quoted "reviews"; ": [{"; quoted key1; ": "; value1; ", ";
              quoted key2; ": "; value2; "}]}"].

(** A reply in the schema: line "5", comment "avoid X". *)
Definition good_text : string :=
  reply_of "lineNumber" (quoted "5") "reviewComment" (quoted "avoid X").
Definition good_json : json := JObj [("reviews", JArr [item (JStr "5") "avoid X"])].

(** A reply whose line number is not a number. *)
Definition bad_line_text : string :=
  reply_of "lineNumber" (quoted "abc") "reviewComment" (quoted "avoid X").
Definition bad_line_json : json :=
  JObj [("reviews", JArr [item (JStr "abc") "avoid X"])].

(** A reply with the wrong keys. *)
Definition bad_keys_text : string :=
  reply_of "line" "3" "comment" (quoted "rename").
Definition bad_keys_json : json :=
  JObj [("reviews", JArr [JObj [("line", JInt 3); ("comment", JStr "rename")]])].

(** A reply in plain words. *)
Definition prose : string := "Looks good to me!".

Definition opened (diff : string) (exclude : option string) : trigger :=
  {| pr_details := pr; action := "opened"; event_name := Some "pull_request";
     opened_diff := diff; synchronize_diff := EmptyString; exclude := exclude |}.

End Sample.

(** ** Notions the further properties are stated with *)

(** The prompts a run of [analyze_code] sends when nothing raises: one for
    each chunk of each file that is not deleted, in the order of the
    diff. *)
Definition expected_prompts (pr : PRDetails) (files : list File.t) : list string :=
  flat_map (fun file =>
              if is_dev_null (File.to file) then []
              else map (fun chunk => create_prompt file chunk pr) (File.chunks file))
           files.

(** A character that [fnmatch.translate] reads as itself. *)
Definition plain (c : ascii) : bool :=
  negb (Ascii.eqb c "*"%char || Ascii.eqb c "?"%char || Ascii.eqb c "["%char).

(** A pattern without star, question mark and opening bracket. *)
Definition literal (pat : string) : bool :=
  forallb plain (list_ascii_of_string pat).

(** A string without a comma. *)
Definition comma_free (s : string) : bool :=
  forallb (fun c => negb (Ascii.eqb c ","%char)) (list_ascii_of_string s).

(** Empty, or starting with a character that is not white space. *)
Definition clean_start (space : ascii -> bool) (s : string) : bool :=
  match s with
  | EmptyString => true
  | String c _ => negb (space c)
  end.

(** The value of [exclude], or its default. *)
Definition exclude_text (exclude : option string) : string :=
  match exclude with Some s => s | None => EmptyString end.

(** A run of two chunks in which the first reply is in the schema and the
    second has a line number that is not a number. *)
Module Sample2.

Definition two_hunks : File.t := File.mk (Some "src/a.py") [Sample.hunk; Sample.hunk].

(** A reply of two items: the line number of the first is not a number,
    that of the second is. *)
Definition mixed_text : string :=
  PyStr.join ["{"; Sample.quoted "reviews"; ": [{";
              Sample.quoted "lineNumber"; ": "; Sample.quoted "abc"; ", ";
              Sample.quoted "reviewComment"; ": "; Sample.quoted "avoid X"; "}, {";
              Sample.quoted "lineNumber"; ": 5, ";
              Sample.quoted "reviewComment"; ": "; Sample.quoted "avoid Y"; "}]}"].
Definition mixed_json : json :=
  JObj [("reviews", JArr [Sample.item (JStr "abc") "avoid X";
                          Sample.item (JInt 5) "avoid Y"])].

Definition service : collaborators :=
  {| create_chat_completion :=
       fun n _ => ChatContent (if (n =? 0)%nat then Sample.good_text
                               else Sample.bad_line_text);
     json_loads :=
       fun s => if String.eqb s Sample.good_text then Some Sample.good_json
                else if String.eqb s Sample.bad_line_text then Some Sample.bad_line_json
                else None;
     parse_diff := fun _ => Ok [two_hunks];
     create_review := fun _ => Ok tt |}.

End Sample2.

(** * Properties *)

(** ** Strings *)

Lemma nonempty_false (s : string) : PyStr.nonempty s = false <-> s = EmptyString.
Proof. destruct s; simpl; split; congruence. Qed.

Section StripFacts.
Variable space : ascii -> bool.

Lemma lstrip_all (s : string) :
  PyStr.all_by space s = true -> PyStr.lstrip_by space s = EmptyString.
Proof.
  induction s as [|c r IH]; simpl; [reflexivity|].
  intros H. apply andb_true_iff in H as [Hc Hr]. rewrite Hc. auto.
Qed.

Lemma rstrip_empty (s : string) :
  PyStr.rstrip_by space s = EmptyString -> PyStr.all_by space s = true.
Proof.
  induction s as [|c r IH]; simpl; [reflexivity|].
  destruct (PyStr.rstrip_by space r).
  - destruct (space c); [intros _; simpl; auto | discriminate].
  - discriminate.
Qed.

Lemma lstrip_all_inv (s : string) :
  PyStr.all_by space (PyStr.lstrip_by space s) = true -> PyStr.all_by space s = true.
Proof.
  induction s as [|c r IH]; simpl; [reflexivity|].
  destruct (space c) eqn:E; simpl.
  - exact IH.
  - rewrite E. discriminate.
Qed.

Lemma strip_by_empty (s : string) :
  PyStr.strip_by space s = EmptyString <-> PyStr.all_by space s = true.
Proof.
  unfold PyStr.strip_by. split; intros H.
  - now apply lstrip_all_inv, rstrip_empty.
  - now rewrite lstrip_all.
Qed.
End StripFacts.

(** A pattern is stripped to the empty pattern exactly when it is blank. *)
Lemma strip_blank (s : string) : PyStr.strip s = EmptyString <-> PyStr.isblank s = true.
Proof. apply strip_by_empty. Qed.

(** ** fnmatch *)

Module FnmatchFacts.
Import Fnmatch.

Lemma matches_star (ts : list tok) (s : chars) :
  matches (TStar :: ts) s
  = matches ts s || match s with [] => false | _ :: s' => matches (TStar :: ts) s' end.
Proof. destruct s; reflexivity. Qed.

Lemma matches_one (t : tok) (ts : list tok) (s : chars) :
  t <> TStar ->
  matches (t :: ts) s
  = match s with [] => false | c :: s' => accepts t c && matches ts s' end.
Proof. destruct t; intros H; try reflexivity. congruence. Qed.

(** The star loop tries every split of the name. *)
Lemma matches_star_split (ts : list tok) (s : chars) :
  matches (TStar :: ts) s = true
  <-> exists run rest, s = run ++ rest /\ matches ts rest = true.
Proof.
  induction s as [|c s IH]; rewrite matches_star.
  - rewrite orb_false_r. split.
    + intros H. exists [], []. auto.
    + intros (run & rest & E & H). symmetry in E.
      apply app_eq_nil in E as [_ ->]. exact H.
  - rewrite orb_true_iff, IH. split.
    + intros [H | (run & rest & -> & H)].
      * exists [], (c :: s). auto.
      * exists (c :: run), rest. auto.
    + intros (run & rest & E & H). destruct run as [|d run]; simpl in E.
      * subst rest. auto.
      * injection E as -> ->. right. eauto.
Qed.

(** The matcher decides the meaning of the translated pattern. *)
Lemma matches_denotes (ts : list tok) (s : chars) :
  matches ts s = true <-> denotes ts s.
Proof.
  revert s. induction ts as [|t ts IH]; intros s.
  - destruct s; simpl; split; intros H; try constructor; try discriminate.
    inversion H.
  - destruct (match t with TStar => true | _ => false end) eqn:Et.
    + destruct t; try discriminate. rewrite matches_star_split. split.
      * intros (run & rest & -> & H). constructor. now apply IH.
      * intros H. inversion H; subst.
        -- eexists _, _. split; [reflexivity|]. now apply IH.
        -- discriminate.
    + rewrite matches_one by (destruct t; congruence || discriminate).
      destruct s as [|c s]; split; intros H; try discriminate.
      * inversion H; subst. destruct run; discriminate.
      * apply andb_true_iff in H as [Ha Hm]. constructor; [exact Ha | now apply IH].
      * inversion H; subst; [discriminate|].
        apply andb_true_iff. split; [assumption | now apply IH].
Qed.

Lemma fnmatch_glob (name pat : string) : fnmatch name pat = true <-> glob pat name.
Proof. apply matches_denotes. Qed.

(** The empty pattern matches the empty name and no other. *)
Lemma fnmatch_empty_pattern (name : string) :
  fnmatch name EmptyString = negb (PyStr.nonempty name).
Proof. destruct name; reflexivity. Qed.

End FnmatchFacts.

(** ** The path filter *)

Lemma is_excluded_exists (to : option string) (patterns : list string) :
  is_excluded to patterns = true
  <-> exists pattern,
      In pattern patterns /\ minimatch (Py.or_str to EmptyString) pattern = true.
Proof. unfold is_excluded. apply existsb_exists. Qed.

(** The empty pattern excludes the files without a name, and only them. *)
Lemma minimatch_empty_pattern (to : option string) :
  minimatch (Py.or_str to EmptyString) EmptyString = negb (Py.truthy_str to).
Proof.
  unfold minimatch. rewrite FnmatchFacts.fnmatch_empty_pattern.
  destruct to as [[|c s]|]; reflexivity.
Qed.

Lemma exclude_patterns_unset : exclude_patterns None = [EmptyString].
Proof. reflexivity. Qed.



(** C4, as the code has it: for a file whose path is not empty, blank
    patterns have no effect on exclusion, the patterns being stripped as
    [main] strips them; such a file is not excluded when the variable
    [exclude] is unset, and x.ts is not excluded by the one empty
    pattern. *)
Theorem C4_blank_patterns_ignored_for_named_files
        (to : option string) (patterns : list string) :
  Py.truthy_str to = true ->
  is_excluded to (map PyStr.strip patterns)
  = is_excluded to (map PyStr.strip (filter (fun p => negb (PyStr.isblank p)) patterns))
  /\ is_excluded to (exclude_patterns None) = false
  /\ is_excluded (Some "x.ts") [EmptyString] = false.
Proof.
  intros Hto. split; [|split; [|reflexivity]].
  - induction patterns as [|p ps IH]; [reflexivity|].
    simpl. destruct (PyStr.isblank p) eqn:Hb; simpl.
    + apply strip_blank in Hb. rewrite Hb, minimatch_empty_pattern, Hto. exact IH.
    + now rewrite IH.
  - rewrite exclude_patterns_unset. simpl.
    now rewrite minimatch_empty_pattern, Hto.
Qed.

Lemma C4_blank_patterns_ignored_for_named_files_witness :
  Py.truthy_str (Some "x.ts") = true
  /\ is_excluded (Some "x.ts") (map PyStr.strip [EmptyString; "  "; " *.md"])
     = is_excluded (Some "x.ts") (map PyStr.strip [" *.md"]).
Proof.
  split; [reflexivity|].
  apply (proj1 (C4_blank_patterns_ignored_for_named_files
                  (Some "x.ts") [EmptyString; "  "; " *.md"] eq_refl)).
Defined.

(** C4 fails for a file without a name: the one empty pattern of an unset
    configuration excludes it, and with the blank pattern removed it is
    kept. *)
Lemma C4_blank_pattern_excludes_unnamed_file :
  let unnamed := File.mk None [] in
  let empty := File.mk (Some EmptyString) [] in
  filtered_diff [unnamed; empty] (exclude_patterns None) = []
  /\ filtered_diff [unnamed; empty]
       (map PyStr.strip
            (filter (fun p => negb (PyStr.isblank p))
                    (PyStr.split ","%char EmptyString)))
     = [unnamed; empty].
Proof. split; reflexivity. Qed.

(** C10: when the variable [exclude] is unset the pattern list is the one
    empty pattern, which matches the empty name and no other; a file is
    then excluded exactly when its path is [None] or empty, and the filter
    keeps exactly the files with a path that is not empty. *)
Theorem C10_unset_exclude_drops_unnamed_files :
  exclude_patterns None = [EmptyString]
  /\ (forall name : string,
         minimatch name EmptyString = true <-> name = EmptyString)
  /\ (forall to : option string,
         is_excluded to (exclude_patterns None) = negb (Py.truthy_str to))
  /\ (forall parsed_diff : list File.t,
         filtered_diff parsed_diff (exclude_patterns None)
         = filter (fun file => Py.truthy_str (File.to file)) parsed_diff).
Proof.
  assert (H : forall to,
             is_excluded to (exclude_patterns None) = negb (Py.truthy_str to)).
  { intros to. rewrite exclude_patterns_unset. simpl.
    now rewrite minimatch_empty_pattern, orb_false_r. }
  split; [reflexivity|split; [|split; [exact H|]]].
  { intros name. unfold minimatch.
    rewrite FnmatchFacts.fnmatch_empty_pattern, negb_true_iff.
    apply nonempty_false. }
  intros parsed. unfold filtered_diff. apply filter_ext.
  intros file. now rewrite H, negb_involutive.
Qed.

(** ** The run *)

Lemma submissions_app (a b : list event) :
  submissions (a ++ b) = submissions a ++ submissions b.
Proof. apply flat_map_app. Qed.

Lemma emit_trace (e : event) (st : state) : trace (emit e st) = trace st ++ [e].
Proof. reflexivity. Qed.

Lemma quiet_refl (st : state) : quiet st st.
Proof. exists []. now rewrite app_nil_r. Qed.

Lemma quiet_trans (a b c : state) : quiet a b -> quiet b c -> quiet a c.
Proof.
  intros (t1 & E1 & S1) (t2 & E2 & S2). exists (t1 ++ t2). split.
  - now rewrite E2, E1, app_assoc.
  - now rewrite submissions_app, S1, S2.
Qed.

Lemma quiet_submissions (st st' : state) :
  quiet st st' -> submissions (trace st') = submissions (trace st).
Proof.
  intros (tail & E & S). now rewrite E, submissions_app, S, app_nil_r.
Qed.

Section RunFacts.

Variable w : collaborators.

(** A call of the language model is logged with its prompt, counted, and
    never raises. *)
Lemma get_ai_response_run (prompt : string) (st : state) :
  exists reviews tail,
    get_ai_response w prompt st
    = (Ok reviews,
       {| calls := S (calls st); trace := trace st ++ EvChat prompt :: tail |})
    /\ (tail = [] \/ tail = [EvLogError]).
Proof.
  unfold get_ai_response.
  destruct (create_chat_completion w (calls st) prompt) as [|content].
  - exists JNull, [EvLogError]. unfold emit; simpl. rewrite <- app_assoc. auto.
  - destruct (decode_reviews w content) as [reviews|e].
    + exists reviews, []. auto.
    + exists JNull, [EvLogError]. unfold emit; simpl. rewrite <- app_assoc. auto.
Qed.

Lemma decode_reviews_undecodable (content : string) :
  undecodable w (ChatContent content) = true
  <-> exists e, decode_reviews w content = Raise e.
Proof.
  unfold undecodable, decode_reviews.
  destruct (json_loads w (reply_text content)) as [v|].
  - destruct v; simpl; try (split; [eauto | reflexivity]).
    destruct (Py.lookup "reviews" members); split;
      try discriminate; eauto; intros [e H]; discriminate.
  - split; eauto.
Qed.

Lemma get_ai_response_undecodable (prompt : string) (st : state) :
  undecodable w (create_chat_completion w (calls st) prompt) = true ->
  get_ai_response w prompt st
  = (Ok JNull,
     {| calls := S (calls st); trace := trace st ++ [EvChat prompt; EvLogError] |}).
Proof.
  unfold get_ai_response.
  destruct (create_chat_completion w (calls st) prompt) as [|content]; intros H.
  - unfold emit; simpl. now rewrite <- app_assoc.
  - apply decode_reviews_undecodable in H as [e ->].
    unfold emit; simpl. now rewrite <- app_assoc.
Qed.

(** One turn of the inner loop sends exactly one prompt, the one that
    [create_prompt] builds from its three arguments. *)
Lemma analyze_chunk_run (file : File.t) (pr : PRDetails) (chunk : Chunk.t)
      (comments : list comment) (st : state) :
  exists r tail,
    analyze_chunk w file pr chunk comments st
    = (r, {| calls := S (calls st);
             trace := trace st ++ EvChat (create_prompt file chunk pr) :: tail |})
    /\ (tail = [] \/ tail = [EvLogError]).
Proof.
  unfold analyze_chunk, bind.
  destruct (get_ai_response_run (create_prompt file chunk pr) st)
    as (reviews & tail & -> & Htail).
  destruct (Py.truthy reviews); unfold lift, ret.
  - destruct (create_comment file chunk reviews) as [cs|e]; eauto.
  - eauto.
Qed.

Lemma analyze_chunk_quiet file pr chunk comments st :
  quiet st (snd (analyze_chunk w file pr chunk comments st)).
Proof.
  destruct (analyze_chunk_run file pr chunk comments st) as (r & tail & -> & H).
  eexists. split; [reflexivity|].
  destruct H as [-> | ->]; reflexivity.
Qed.

Lemma analyze_chunks_quiet file pr chunks comments st :
  quiet st (snd (analyze_chunks w file pr chunks comments st)).
Proof.
  revert comments st. induction chunks as [|chunk rest IH]; intros comments st.
  - apply quiet_refl.
  - simpl. unfold bind.
    pose proof (analyze_chunk_quiet file pr chunk comments st) as H.
    destruct (analyze_chunk w file pr chunk comments st) as [[cs|e] st1];
      simpl in H.
    + eapply quiet_trans; [exact H | apply IH].
    + exact H.
Qed.

Lemma analyze_files_quiet pr files comments st :
  quiet st (snd (analyze_files w pr files comments st)).
Proof.
  revert comments st. induction files as [|file rest IH]; intros comments st.
  - apply quiet_refl.
  - simpl. destruct (is_dev_null (File.to file)); [apply IH|].
    unfold bind.
    pose proof (analyze_chunks_quiet file pr (File.chunks file) comments st) as H.
    destruct (analyze_chunks w file pr (File.chunks file) comments st)
      as [[cs|e] st1]; simpl in H.
    + eapply quiet_trans; [exact H | apply IH].
    + exact H.
Qed.

(** A file with the path /dev/null leaves the loop over the files as it
    found it. *)
Lemma analyze_files_skip pr pre file post comments st :
  is_dev_null (File.to file) = true ->
  analyze_files w pr (pre ++ file :: post) comments st
  = analyze_files w pr (pre ++ post) comments st.
Proof.
  intros Hdel. revert comments st.
  induction pre as [|f pre IH]; intros comments st; simpl.
  - now rewrite Hdel.
  - destruct (is_dev_null (File.to f)); [apply IH|].
    unfold bind.
    destruct (analyze_chunks w f pr (File.chunks f) comments st) as [[cs|e] st1];
      [apply IH | reflexivity].
Qed.

End RunFacts.

(** ** The orchestrator *)

(** C5: a file whose path is /dev/null is skipped by [analyze_code]: with
    the file or without it the run sends the same prompts, makes the same
    calls and returns the same comments, whatever its chunks hold and
    whatever the language model answers; on its own the file gives no
    comment and leaves the state as it was. *)
Theorem C5_deleted_file_is_skipped
        (w : collaborators) (pr : PRDetails) (pre post : list File.t)
        (file : File.t) (st : state) :
  File.to file = Some dev_null ->
  analyze_code w (pre ++ file :: post) pr st = analyze_code w (pre ++ post) pr st
  /\ analyze_code w [file] pr st = (Ok [], st).
Proof.
  intros Hto.
  assert (H : is_dev_null (File.to file) = true) by now rewrite Hto.
  unfold analyze_code. split.
  - now apply analyze_files_skip.
  - simpl. now rewrite H.
Qed.

Lemma C5_deleted_file_is_skipped_witness :
  File.to Sample.deleted = Some dev_null
  /\ analyze_code (Sample.service Sample.good_text (Some Sample.good_json))
                  ([Sample.added] ++ Sample.deleted :: [Sample.added])
                  Sample.pr initial
     = analyze_code (Sample.service Sample.good_text (Some Sample.good_json))
                    ([Sample.added] ++ [Sample.added]) Sample.pr initial.
Proof.
  split; [reflexivity|].
  apply (proj1 (C5_deleted_file_is_skipped
                  (Sample.service Sample.good_text (Some Sample.good_json))
                  Sample.pr [Sample.added] [Sample.added] Sample.deleted initial
                  eq_refl)).
Defined.

(** C6: when the diff of the event is the empty text, [main] prints its
    message and returns: nothing is parsed, no prompt is sent, and nothing
    is handed to [create_review_comment]. *)
Theorem C6_empty_diff_returns_early (w : collaborators) (t : trigger) (st : state) :
  event_diff t = Some EmptyString ->
  main w t st = (Ok tt, emit (EvPrint "No diff found") st)
  /\ accumulated w t = None
  /\ parses (trace (snd (main w t initial))) = []
  /\ prompts (trace (snd (main w t initial))) = []
  /\ submissions (trace (snd (main w t initial))) = [].
Proof.
  intros H. unfold main, accumulated. rewrite H. simpl. auto.
Qed.

Lemma C6_empty_diff_returns_early_witness :
  event_diff (Sample.opened EmptyString None) = Some EmptyString
  /\ main (Sample.service Sample.good_text (Some Sample.good_json))
          (Sample.opened EmptyString None) initial
     = (Ok tt, emit (EvPrint "No diff found") initial).
Proof.
  split; [reflexivity|].
  apply (C6_empty_diff_returns_early
           (Sample.service Sample.good_text (Some Sample.good_json))
           (Sample.opened EmptyString None) initial).
  reflexivity.
Defined.

(** C7: in every run the comment lists handed to [create_review_comment]
    are none, or the accumulator alone when it is not empty: the
    submission is invoked at most once, only with a list that is not
    empty, and not at all when the accumulator is empty or was never
    reached. *)
Theorem C7_submission_at_most_once (w : collaborators) (t : trigger) :
  let handed := submissions (trace (snd (main w t initial))) in
  handed = match accumulated w t with
           | Some (c :: cs) => [c :: cs]
           | _ => []
           end
  /\ (List.length handed <= 1)%nat
  /\ Forall (fun comments => comments <> []) handed.
Proof.
  intros handed.
  assert (H : handed = match accumulated w t with
                       | Some (c :: cs) => [c :: cs]
                       | _ => []
                       end); [subst handed|
    split; [exact H|rewrite H; destruct (accumulated w t) as [[|c cs]|]; simpl;
                    repeat constructor; discriminate]].
  unfold main, accumulated.
  destruct (event_diff t) as [diff|]; [|reflexivity].
  destruct (negb (PyStr.nonempty diff)); [reflexivity|].
  unfold bind, say, lift; simpl.
  destruct (parse_diff w diff) as [parsed|e]; [|reflexivity].
  pose proof (analyze_files_quiet w (pr_details t)
                (filtered_diff parsed (exclude_patterns (exclude t))) []
                (emit (EvParse diff) initial)) as Hq.
  apply quiet_submissions in Hq. unfold analyze_code.
  destruct (analyze_files w (pr_details t)
              (filtered_diff parsed (exclude_patterns (exclude t))) []
              (emit (EvParse diff) initial)) as [[comments|e] st2]; simpl in *.
  - destruct comments as [|c cs]; simpl; [exact Hq|].
    unfold create_review_comment, bind, say, lift; simpl.
    rewrite submissions_app, Hq. reflexivity.
  - exact Hq.
Qed.

(** ** The prompt builder *)

Lemma prompts_app (a b : list event) : prompts (a ++ b) = prompts a ++ prompts b.
Proof. apply flat_map_app. Qed.

(** What a change shows in the prompt: its line number and its text. *)
Lemma change_text_shown (changes changes' : list Change.t) :
  map (fun c => (change_line c, Change.content c)) changes
  = map (fun c => (change_line c, Change.content c)) changes' ->
  map change_text changes = map change_text changes'.
Proof.
  intros H.
  assert (E : forall l,
             map change_text l
             = map (fun p => PyStr.join [Py.str_of_optZ (fst p); " "; snd p])
                   (map (fun c => (change_line c, Change.content c)) l)).
  { intros l. rewrite map_map. reflexivity. }
  now rewrite (E changes), (E changes'), H.
Qed.

(** C9: [create_prompt] is a function of what it reads from its three
    arguments (the path of the file, the content of the chunk and the line
    number and text of each change, the title and the description): calls
    that agree on these return the same prompt, and the prompt that
    [analyze_code] sends for a chunk is that string in every state of the
    run and with every collaborator. *)
Theorem C9_create_prompt_deterministic
        (file file' : File.t) (chunk chunk' : Chunk.t) (pr pr' : PRDetails) :
  File.to file = File.to file' ->
  Chunk.content chunk = Chunk.content chunk' ->
  map (fun c => (change_line c, Change.content c)) (Chunk.changes chunk)
  = map (fun c => (change_line c, Change.content c)) (Chunk.changes chunk') ->
  title pr = title pr' ->
  description pr = description pr' ->
  create_prompt file chunk pr = create_prompt file' chunk' pr'
  /\ forall (w : collaborators) (comments : list comment) (st : state),
      prompts (trace (snd (analyze_chunk w file pr chunk comments st)))
      = prompts (trace st) ++ [create_prompt file' chunk' pr'].
Proof.
  intros Hto Hcontent Hchanges Htitle Hdesc.
  assert (E : create_prompt file chunk pr = create_prompt file' chunk' pr').
  { unfold create_prompt.
    now rewrite Hto, Hcontent, Htitle, Hdesc, (change_text_shown _ _ Hchanges). }
  split; [exact E|].
  intros w comments st.
  destruct (analyze_chunk_run w file pr chunk comments st) as (r & tail & -> & H).
  simpl. rewrite prompts_app, <- E. simpl.
  destruct H as [-> | ->]; reflexivity.
Qed.

Lemma C9_create_prompt_deterministic_witness :
  create_prompt (File.mk (Some "src/a.py") [])
                (Chunk.mk "@@ -1 +1 @@" [Change.mk (Some 0%Z) (Some 4%Z) " x"])
                Sample.pr
  = create_prompt Sample.added
                  (Chunk.mk "@@ -1 +1 @@" [Change.mk None (Some 4%Z) " x"])
                  {| owner := "other"; repo := "fork"; pull_number := 9;
                     title := "Add a"; description := None |}.
Proof.
  apply (C9_create_prompt_deterministic
           (File.mk (Some "src/a.py") []) Sample.added
           (Chunk.mk "@@ -1 +1 @@" [Change.mk (Some 0%Z) (Some 4%Z) " x"])
           (Chunk.mk "@@ -1 +1 @@" [Change.mk None (Some 4%Z) " x"])
           Sample.pr
           {| owner := "other"; repo := "fork"; pull_number := 9;
              title := "Add a"; description := None |});
    reflexivity.
Defined.

(** ** The response mapper *)

Lemma comments_of_no_path (file : File.t) (items : list json) :
  Py.truthy_str (File.to file) = false -> comments_of file items = Ok [].
Proof.
  intros H. induction items as [|item rest IH]; simpl; [reflexivity|].
  now rewrite H.
Qed.

Lemma comments_of_all (file : File.t) (items : list json) (cs : list comment) :
  Py.truthy_str (File.to file) = true ->
  Forall2 (fun item c => comment_of file item = Ok c) items cs ->
  comments_of file items = Ok cs.
Proof.
  intros Hto H. induction H as [|item c items cs Hc _ IH]; simpl; [reflexivity|].
  now rewrite Hto, Hc, IH.
Qed.

(** Where every item maps, the reply is mapped in full: one comment per
    item, in order, with the path of the file, the [reviewComment] of the
    item as body and its [lineNumber], coerced by [int], as line. *)
Lemma create_comment_all_items
      (file : File.t) (chunk : Chunk.t) (reviews : json) (items : list json)
      (cs : list comment) :
  Py.truthy_str (File.to file) = true ->
  Py.iterate reviews = Ok items ->
  Forall2 (fun item c =>
             exists b l n,
               Py.subscript item "reviewComment" = Ok b
               /\ Py.subscript item "lineNumber" = Ok l
               /\ Py.int l = Ok n
               /\ c = {| body := b; path := File.to file; line := n |})
          items cs ->
  create_comment file chunk reviews = Ok cs.
Proof.
  intros Hto Hit H. unfold create_comment. rewrite Hit. simpl.
  apply comments_of_all; [exact Hto|].
  eapply Forall2_impl; [|exact H].
  intros item c (b & l & n & Hb & Hl & Hn & ->).
  unfold comment_of. now rewrite Hb, Hl; simpl; rewrite Hn.
Qed.

(** C1, at the failing input: the reply has two items, the first with the
    line number "abc" and the second with the line number 5. The second
    item maps on its own, and the specification asks for its comment and
    for no exception; the code returns no comment: the [ValueError] of [int]
    leaves [create_comment], [analyze_code] and [main], and nothing is
    submitted. *)
Lemma C1_one_bad_item_fails_the_reply :
  let reply := Sample.service Sample2.mixed_text (Some Sample2.mixed_json) in
  let run := main reply (Sample.opened "diff --git a/src/a.py b/src/a.py" None)
                  initial in
  comment_of Sample.added (Sample.item (JInt 5) "avoid Y")
  = Ok {| body := JStr "avoid Y"; path := Some "src/a.py"; line := 5 |}
  /\ create_comment Sample.added Sample.hunk
       (JArr [Sample.item (JStr "abc") "avoid X"; Sample.item (JInt 5) "avoid Y"])
     = Raise ValueError
  /\ fst (analyze_code reply [Sample.added] Sample.pr initial) = Raise ValueError
  /\ fst run = Raise ValueError
  /\ submissions (trace (snd run)) = [].
Proof. repeat split. Qed.

(** Where every line number is a number the reply is mapped in full: the
    scenario of the specification, with the line number "5". *)
Example round_trip :
  fst (analyze_code (Sample.service Sample.good_text (Some Sample.good_json))
                    [Sample.added] Sample.pr initial)
  = Ok [{| body := JStr "avoid X"; path := Some "src/a.py"; line := 5 |}].
Proof. reflexivity. Qed.

(** C3, as the code has it: [create_comment] returns no comment for a file
    whose path is [None] or empty, whatever the items of the reply it
    iterates over are; none is looked at. *)
Theorem C3_no_comment_without_a_path
        (file : File.t) (chunk : Chunk.t) (reviews : json) (items : list json) :
  Py.truthy_str (File.to file) = false ->
  Py.iterate reviews = Ok items ->
  create_comment file chunk reviews = Ok [].
Proof.
  intros Hto Hit. unfold create_comment. rewrite Hit. simpl.
  now apply comments_of_no_path.
Qed.

Lemma C3_no_comment_without_a_path_witness :
  Py.truthy_str (File.to Sample.empty_path) = false
  /\ create_comment Sample.empty_path Sample.hunk
       (JArr [Sample.item (JStr "abc") "avoid X"; JInt 4])
     = Ok [].
Proof.
  split; [reflexivity|].
  apply (C3_no_comment_without_a_path Sample.empty_path Sample.hunk
           (JArr [Sample.item (JStr "abc") "avoid X"; JInt 4]) eq_refl eq_refl).
Defined.

(** C3 fails for the path /dev/null, which [create_comment] does not look
    for: the items of the reply are mapped to comments on /dev/null. It
    also fails for a reply that cannot be iterated over, which raises even
    for a file without a path. *)
Lemma C3_dev_null_is_mapped :
  create_comment Sample.deleted Sample.hunk (JArr [Sample.item (JInt 5) "avoid X"])
  = Ok [{| body := JStr "avoid X"; path := Some "/dev/null"; line := 5 |}]
  /\ create_comment Sample.empty_path Sample.hunk (JInt 5) = Raise TypeError.
Proof. split; reflexivity. Qed.

(** ** Replies that cannot be decoded *)

(** When the call of the language model raises, or its reply is not JSON,
    or the decoded reply is not an object with the key [reviews],
    [get_ai_response] logs the error and returns [None], the chunk adds no
    comment, nothing is raised, and the loop goes on with the chunks that
    remain. *)
Lemma undecodable_reply_adds_no_comment
        (w : collaborators) (file : File.t) (pr : PRDetails) (chunk : Chunk.t)
        (rest : list Chunk.t) (comments : list comment) (st : state) :
  let prompt := create_prompt file chunk pr in
  let st' := {| calls := S (calls st);
                trace := trace st ++ [EvChat prompt; EvLogError] |} in
  undecodable w (create_chat_completion w (calls st) prompt) = true ->
  get_ai_response w prompt st = (Ok JNull, st')
  /\ analyze_chunk w file pr chunk comments st = (Ok comments, st')
  /\ analyze_chunks w file pr (chunk :: rest) comments st
     = analyze_chunks w file pr rest comments st'.
Proof.
  intros prompt st' H.
  pose proof (get_ai_response_undecodable w prompt st H) as E.
  assert (E2 : analyze_chunk w file pr chunk comments st = (Ok comments, st')).
  { unfold analyze_chunk, bind. fold prompt. rewrite E. reflexivity. }
  split; [exact E|split; [exact E2|]].
  simpl. unfold bind. now rewrite E2.
Qed.

Example prose_reply_adds_no_comment :
  undecodable (Sample.service Sample.prose None)
              (create_chat_completion (Sample.service Sample.prose None) 0
                 (create_prompt Sample.added Sample.hunk Sample.pr))
  = true
  /\ analyze_chunk (Sample.service Sample.prose None)
                   Sample.added Sample.pr Sample.hunk [] initial
     = (Ok [],
        {| calls := 1;
           trace := [EvChat (create_prompt Sample.added Sample.hunk Sample.pr);
                     EvLogError] |}).
Proof.
  split; [reflexivity|].
  apply (proj1 (proj2 (undecodable_reply_adds_no_comment
                         (Sample.service Sample.prose None)
                         Sample.added Sample.pr Sample.hunk [] [] initial eq_refl))).
Qed.

(** C2, at the failing input: the reply is JSON with the key [reviews],
    and its one item has the keys [line] and [comment] instead of those of
    the schema. The specification asks for no comment and no exception;
    [get_ai_response] reports no failure, it returns the items, and the
    [KeyError] of [create_comment] leaves [analyze_code] and [main]. *)
Lemma C2_malformed_items_raise :
  let reply := Sample.service Sample.bad_keys_text (Some Sample.bad_keys_json) in
  let run := main reply (Sample.opened "diff --git a/src/a.py b/src/a.py" None)
                  initial in
  fst (get_ai_response reply (create_prompt Sample.added Sample.hunk Sample.pr) initial)
  = Ok (JArr [JObj [("line", JInt 3); ("comment", JStr "rename")]])
  /\ fst (analyze_code reply [Sample.added] Sample.pr initial) = Raise KeyError
  /\ fst run = Raise KeyError
  /\ submissions (trace (snd run)) = [].
Proof. repeat split. Qed.

(** ** A whole run *)

(** One added file, one hunk, one reply in the schema: the run parses,
    sends one prompt and hands the one comment over, once. *)
Example whole_run :
  let run := main (Sample.service Sample.good_text (Some Sample.good_json))
                  (Sample.opened "diff --git a/src/a.py b/src/a.py" None) initial in
  fst run = Ok tt
  /\ parses (trace (snd run)) = ["diff --git a/src/a.py b/src/a.py"]
  /\ prompts (trace (snd run)) = [create_prompt Sample.added Sample.hunk Sample.pr]
  /\ submissions (trace (snd run))
     = [[{| body := JStr "avoid X"; path := Some "src/a.py"; line := 5 |}]].
Proof. repeat split. Qed.

(** The same run with the pattern src/* in the variable [exclude]: the
    file is filtered out and nothing is sent or handed over. *)
Example excluded_run :
  let run := main (Sample.service Sample.good_text (Some Sample.good_json))
                  (Sample.opened "diff --git a/src/a.py b/src/a.py" (Some "*.md, src/*"))
                  initial in
  fst run = Ok tt
  /\ prompts (trace (snd run)) = []
  /\ submissions (trace (snd run)) = [].
Proof. repeat split. Qed.

(** * Further properties *)

(** ** How the loops of [analyze_code] compose *)

Section LoopFacts.

Variable w : collaborators.

(** What a turn of the loop adds does not depend on what was accumulated
    before. *)
Lemma analyze_chunk_acc file pr chunk comments st :
  analyze_chunk w file pr chunk comments st
  = match analyze_chunk w file pr chunk [] st with
    | (Ok new, st') => (Ok (comments ++ new), st')
    | (Raise e, st') => (Raise e, st')
    end.
Proof.
  unfold analyze_chunk, bind.
  destruct (get_ai_response w (create_prompt file chunk pr) st) as [[reviews|e] st1];
    [|reflexivity].
  destruct (Py.truthy reviews); unfold lift, ret.
  - destruct (create_comment file chunk reviews) as [[|c cs]|e]; simpl;
      try reflexivity. now rewrite app_nil_r.
  - now rewrite app_nil_r.
Qed.

Lemma analyze_chunks_acc file pr chunks comments st :
  analyze_chunks w file pr chunks comments st
  = match analyze_chunks w file pr chunks [] st with
    | (Ok new, st') => (Ok (comments ++ new), st')
    | (Raise e, st') => (Raise e, st')
    end.
Proof.
  revert comments st. induction chunks as [|chunk rest IH]; intros comments st; simpl.
  - unfold ret. now rewrite app_nil_r.
  - unfold bind. rewrite (analyze_chunk_acc file pr chunk comments st).
    destruct (analyze_chunk w file pr chunk [] st) as [[new|e] st1]; [|reflexivity].
    rewrite (IH (comments ++ new)), (IH new).
    destruct (analyze_chunks w file pr rest [] st1) as [[more|e] st2];
      [|reflexivity].
    now rewrite app_assoc.
Qed.

Lemma analyze_files_acc pr files comments st :
  analyze_files w pr files comments st
  = match analyze_files w pr files [] st with
    | (Ok new, st') => (Ok (comments ++ new), st')
    | (Raise e, st') => (Raise e, st')
    end.
Proof.
  revert comments st. induction files as [|file rest IH]; intros comments st; simpl.
  - unfold ret. now rewrite app_nil_r.
  - destruct (is_dev_null (File.to file)); [apply IH|].
    unfold bind. rewrite (analyze_chunks_acc file pr (File.chunks file) comments st).
    destruct (analyze_chunks w file pr (File.chunks file) [] st) as [[new|e] st1];
      [|reflexivity].
    rewrite (IH (comments ++ new)), (IH new).
    destruct (analyze_files w pr rest [] st1) as [[more|e] st2]; [|reflexivity].
    now rewrite app_assoc.
Qed.

Lemma analyze_files_app pr a b comments st :
  analyze_files w pr (a ++ b) comments st
  = match analyze_files w pr a comments st with
    | (Ok comments', st') => analyze_files w pr b comments' st'
    | (Raise e, st') => (Raise e, st')
    end.
Proof.
  revert comments st. induction a as [|file rest IH]; intros comments st; simpl.
  - reflexivity.
  - destruct (is_dev_null (File.to file)); [apply IH|].
    unfold bind.
    destruct (analyze_chunks w file pr (File.chunks file) comments st)
      as [[new|e] st1]; [apply IH | reflexivity].
Qed.

End LoopFacts.

(** X1: the comments of a diff are those of its first part followed by
    those of the rest, the rest being analysed in the state the first part
    leaves; an exception in either part is the exception of the whole, and
    after one in the first part the rest is not analysed. *)
Theorem analyze_code_app (w : collaborators) (pr : PRDetails)
        (a b : list File.t) (st : state) :
  analyze_code w (a ++ b) pr st
  = match analyze_code w a pr st with
    | (Ok first, st1) =>
        match analyze_code w b pr st1 with
        | (Ok second, st2) => (Ok (first ++ second), st2)
        | (Raise e, st2) => (Raise e, st2)
        end
    | (Raise e, st1) => (Raise e, st1)
    end.
Proof.
  unfold analyze_code. rewrite analyze_files_app.
  destruct (analyze_files w pr a [] st) as [[first|e] st1]; [|reflexivity].
  apply analyze_files_acc.
Qed.

(** ** The prompts of a run *)

Section PromptFacts.

Variable w : collaborators.

Lemma analyze_chunks_prompts file pr chunks comments st :
  let run := analyze_chunks w file pr chunks comments st in
  let expected := map (fun chunk => create_prompt file chunk pr) chunks in
  exists n,
    prompts (trace (snd run)) = prompts (trace st) ++ firstn n expected
    /\ calls (snd run) = (calls st + n)%nat
    /\ (n <= List.length expected)%nat
    /\ (forall cs, fst run = Ok cs -> n = List.length expected).
Proof.
  revert comments st. induction chunks as [|chunk rest IH]; intros comments st; simpl.
  - exists 0%nat. simpl. rewrite app_nil_r, Nat.add_0_r. auto.
  - unfold bind.
    destruct (analyze_chunk_run w file pr chunk comments st) as (r & tail & E & Ht).
    rewrite E.
    assert (Hp : prompts (trace st ++ EvChat (create_prompt file chunk pr) :: tail)
                 = prompts (trace st) ++ [create_prompt file chunk pr]).
    { rewrite prompts_app. simpl. destruct Ht as [-> | ->]; reflexivity. }
    destruct r as [cs|e].
    + destruct (IH cs {| calls := S (calls st);
                         trace := trace st ++ EvChat (create_prompt file chunk pr) :: tail |})
        as (n & Hn1 & Hn2 & Hn3 & Hn4).
      simpl in *. exists (S n). rewrite Hn1, Hn2, Hp, <- app_assoc. simpl.
      repeat split; try lia. intros cs' Hcs. f_equal. eauto.
    + exists 1%nat. simpl. rewrite Hp. repeat split; try lia. discriminate.
Qed.

Lemma analyze_files_prompts pr files comments st :
  let run := analyze_files w pr files comments st in
  let expected := expected_prompts pr files in
  exists n,
    prompts (trace (snd run)) = prompts (trace st) ++ firstn n expected
    /\ calls (snd run) = (calls st + n)%nat
    /\ (n <= List.length expected)%nat
    /\ (forall cs, fst run = Ok cs -> n = List.length expected).
Proof.
  revert comments st. induction files as [|file rest IH]; intros comments st; simpl.
  - exists 0%nat. simpl. rewrite app_nil_r, Nat.add_0_r. auto.
  - destruct (is_dev_null (File.to file)); [apply IH|].
    unfold bind.
    destruct (analyze_chunks_prompts file pr (File.chunks file) comments st)
      as (n1 & H1 & H2 & H3 & H4).
    destruct (analyze_chunks w file pr (File.chunks file) comments st)
      as [[cs|e] st1]; simpl in *.
    + destruct (IH cs st1) as (n2 & G1 & G2 & G3 & G4).
      specialize (H4 cs eq_refl). subst n1.
      exists (List.length (map (fun chunk => create_prompt file chunk pr)
                               (File.chunks file)) + n2)%nat.
      rewrite G1, G2, H1, H2, firstn_all, firstn_app_2, <- app_assoc, length_app.
      repeat split; try lia. intros cs' Hcs. f_equal. eauto.
    + exists n1. rewrite H1, H2, firstn_app, length_app.
      replace (n1 - _)%nat with 0%nat by lia. simpl. rewrite app_nil_r.
      repeat split; try lia. discriminate.
Qed.

End PromptFacts.

(** X2: [analyze_code] sends one prompt for each chunk of each file that is
    not deleted, in the order of the diff, and makes one call of the
    language model for each: a run that returns has sent all of them, a run
    that raises has sent the first of them up to the chunk whose reply it
    could not map, and no run sends any other prompt. *)
Theorem analyze_code_prompts (w : collaborators) (files : list File.t)
        (pr : PRDetails) (st : state) :
  let run := analyze_code w files pr st in
  let expected := expected_prompts pr files in
  exists n,
    prompts (trace (snd run)) = prompts (trace st) ++ firstn n expected
    /\ calls (snd run) = (calls st + n)%nat
    /\ (n <= List.length expected)%nat
    /\ (forall cs, fst run = Ok cs -> n = List.length expected).
Proof. apply analyze_files_prompts. Qed.

(** ** The comments of a run *)

(** What holds of a comment made for [file]. *)
Lemma comments_of_paths (file : File.t) (items : list json) (cs : list comment) :
  comments_of file items = Ok cs ->
  Forall (fun c => path c = File.to file /\ Py.truthy_str (path c) = true) cs.
Proof.
  revert cs. induction items as [|item rest IH]; intros cs; simpl.
  - intros [= <-]. constructor.
  - destruct (Py.truthy_str (File.to file)) eqn:Hto; [|apply IH].
    unfold comment_of.
    destruct (Py.subscript item "reviewComment") as [b|e]; simpl; [|discriminate].
    destruct (Py.subscript item "lineNumber") as [l|e]; simpl; [|discriminate].
    destruct (Py.int l) as [n|e]; simpl; [|discriminate].
    destruct (comments_of file rest) as [cs'|e]; simpl; [|discriminate].
    intros [= <-]. constructor; [simpl; auto | now apply IH].
Qed.

Section CommentFacts.

Variable w : collaborators.
Variable P : comment -> Prop.

Lemma analyze_chunks_forall file pr chunks comments st cs st' :
  (forall c, path c = File.to file -> Py.truthy_str (path c) = true -> P c) ->
  Forall P comments ->
  analyze_chunks w file pr chunks comments st = (Ok cs, st') ->
  Forall P cs.
Proof.
  intros HP. revert comments st. induction chunks as [|chunk rest IH];
    intros comments st Hacc; simpl.
  - unfold ret. now intros [= <- _].
  - unfold bind.
    destruct (analyze_chunk w file pr chunk comments st) as [[cs1|e] st1] eqn:E;
      [|discriminate].
    apply IH. revert E. unfold analyze_chunk, bind.
    destruct (get_ai_response w (create_prompt file chunk pr) st)
      as [[reviews|e] st0]; [|discriminate].
    destruct (Py.truthy reviews); unfold lift, ret; [|now intros [= <- _]].
    unfold create_comment.
    destruct (Py.iterate reviews) as [items|e]; [|discriminate]. simpl.
    destruct (comments_of file items) as [new|e] eqn:En; [|discriminate].
    apply comments_of_paths in En.
    intros [= <- _]. destruct new as [|c new]; [exact Hacc|].
    apply Forall_app. split; [exact Hacc|].
    eapply Forall_impl; [|exact En]. intros a [Ha1 Ha2]. now apply HP.
Qed.

Lemma analyze_files_forall pr files comments st cs st' :
  (forall file c, In file files -> is_dev_null (File.to file) = false ->
                  path c = File.to file -> Py.truthy_str (path c) = true -> P c) ->
  Forall P comments ->
  analyze_files w pr files comments st = (Ok cs, st') ->
  Forall P cs.
Proof.
  revert comments st. induction files as [|file rest IH];
    intros comments st HP Hacc; simpl.
  - unfold ret. now intros [= <- _].
  - destruct (is_dev_null (File.to file)) eqn:Hdel.
    + apply IH; [|exact Hacc]. intros f c Hin. apply HP. now right.
    + unfold bind.
      destruct (analyze_chunks w file pr (File.chunks file) comments st)
        as [[cs1|e] st1] eqn:E; [|discriminate].
      apply IH.
      * intros f c Hin. apply HP. now right.
      * eapply analyze_chunks_forall; [|exact Hacc|exact E].
        intros c. apply HP; [now left | exact Hdel].
Qed.

End CommentFacts.

(** X3: every comment that [analyze_code] returns is attached to the path
    of a file of the diff it was given, and that path is neither empty nor
    /dev/null. *)
Theorem analyze_code_comment_paths
        (w : collaborators) (files : list File.t) (pr : PRDetails)
        (st st' : state) (cs : list comment) :
  analyze_code w files pr st = (Ok cs, st') ->
  Forall (fun c =>
            Py.truthy_str (path c) = true
            /\ path c <> Some dev_null
            /\ exists file, In file files /\ File.to file = path c)
         cs.
Proof.
  unfold analyze_code.
  apply analyze_files_forall; [|constructor].
  intros file c Hin Hdel Hpath Htruthy. split; [exact Htruthy|split].
  - intros Hc. rewrite <- Hpath, Hc in Hdel. discriminate.
  - exists file. auto.
Qed.

Lemma analyze_code_comment_paths_witness :
  Forall (fun c =>
            Py.truthy_str (path c) = true
            /\ path c <> Some dev_null
            /\ exists file,
                In file [Sample.deleted; Sample.added; Sample.unnamed]
                /\ File.to file = path c)
         [{| body := JStr "avoid X"; path := Some "src/a.py"; line := 5 |}].
Proof.
  apply (@analyze_code_comment_paths
           (Sample.service Sample.good_text (Some Sample.good_json))
           [Sample.deleted; Sample.added; Sample.unnamed] Sample.pr initial
           (snd (analyze_code (Sample.service Sample.good_text (Some Sample.good_json))
                              [Sample.deleted; Sample.added; Sample.unnamed]
                              Sample.pr initial))).
  reflexivity.
Defined.

(** ** Runs of [main] *)

Lemma in_submissions (o r : string) (n : Z) (cs : list comment) (tr : list event) :
  In (EvSubmit o r n cs) tr -> In cs (submissions tr).
Proof.
  intros H. unfold submissions. apply in_flat_map.
  exists (EvSubmit o r n cs). simpl. auto.
Qed.

(** X4: an event whose action is neither opened nor synchronize makes
    [main] print its message and return: nothing is parsed, no prompt is
    sent and nothing is submitted. *)
Theorem main_unsupported_event (w : collaborators) (t : trigger) (st : state) :
  action t <> "opened" ->
  action t <> "synchronize" ->
  main w t st
  = (Ok tt,
     emit (EvPrint (PyStr.join ["Unsupported event: "; Py.str_of_opt (event_name t)])) st)
  /\ accumulated w t = None.
Proof.
  intros H1 H2. unfold main, accumulated, event_diff.
  apply String.eqb_neq in H1, H2. rewrite H1, H2. auto.
Qed.

Lemma main_unsupported_event_witness :
  main (Sample.service Sample.good_text (Some Sample.good_json))
       {| pr_details := Sample.pr; action := "closed"; event_name := None;
          opened_diff := "diff --git a/src/a.py b/src/a.py";
          synchronize_diff := EmptyString; exclude := None |}
       initial
  = (Ok tt, {| calls := 0; trace := [EvPrint "Unsupported event: None"] |}).
Proof.
  apply (proj1 (main_unsupported_event
                  (Sample.service Sample.good_text (Some Sample.good_json))
                  {| pr_details := Sample.pr; action := "closed"; event_name := None;
                     opened_diff := "diff --git a/src/a.py b/src/a.py";
                     synchronize_diff := EmptyString; exclude := None |}
                  initial ltac:(discriminate) ltac:(discriminate))).
Defined.

(** X5: when a run of [main] submits, it submits the accumulator, to the
    pull request of the event, as the last thing it does, and the outcome
    of the submission is the outcome of the run: a failure to submit is
    raised by [main]. *)
Theorem main_submission (w : collaborators) (t : trigger)
        (o r : string) (n : Z) (cs : list comment) :
  In (EvSubmit o r n cs) (trace (snd (main w t initial))) ->
  o = owner (pr_details t) /\ r = repo (pr_details t)
  /\ n = pull_number (pr_details t)
  /\ accumulated w t = Some cs
  /\ fst (main w t initial) = create_review w cs
  /\ exists before, trace (snd (main w t initial)) = before ++ [EvSubmit o r n cs].
Proof.
  unfold main, accumulated.
  destruct (event_diff t) as [diff|]; simpl;
    [|intros [H|[]]; discriminate].
  destruct (negb (PyStr.nonempty diff)); simpl; [intros [H|[]]; discriminate|].
  unfold bind, say, lift; simpl.
  destruct (parse_diff w diff) as [parsed|e]; simpl;
    [|intros [H|[]]; discriminate].
  pose proof (analyze_files_quiet w (pr_details t)
                (filtered_diff parsed (exclude_patterns (exclude t))) []
                (emit (EvParse diff) initial)) as (tail & Ht & Hs).
  unfold analyze_code.
  destruct (analyze_files w (pr_details t)
              (filtered_diff parsed (exclude_patterns (exclude t))) []
              (emit (EvParse diff) initial)) as [[comments|e] st2]; simpl in *.
  - assert (Hno : ~ In (EvSubmit o r n cs) (trace st2)).
    { rewrite Ht. intros [H|H]; [discriminate|].
      apply in_submissions in H. rewrite Hs in H. exact H. }
    destruct comments as [|c comments]; simpl; [intros H; now apply Hno in H|].
    unfold create_review_comment, bind, say, lift; simpl.
    intros [H|[H|[]]]%in_app_or; [now apply Hno in H|].
    injection H as <- <- <- <-. repeat split; eauto.
  - rewrite Ht. intros [H|H]; [discriminate|].
    apply in_submissions in H. rewrite Hs in H. destruct H.
Qed.

Lemma main_submission_witness :
  In (EvSubmit "octo" "demo" 7
               [{| body := JStr "avoid X"; path := Some "src/a.py"; line := 5 |}])
     (trace (snd (main (Sample.service Sample.good_text (Some Sample.good_json))
                       (Sample.opened "diff --git a/src/a.py b/src/a.py" None)
                       initial)))
  /\ fst (main (Sample.service Sample.good_text (Some Sample.good_json))
               (Sample.opened "diff --git a/src/a.py b/src/a.py" None) initial)
     = Ok tt.
Proof.
  split; [simpl; auto|].
  apply (main_submission
           (Sample.service Sample.good_text (Some Sample.good_json))
           (Sample.opened "diff --git a/src/a.py b/src/a.py" None)
           "octo" "demo" 7
           [{| body := JStr "avoid X"; path := Some "src/a.py"; line := 5 |}]).
  simpl. auto.
Defined.

Lemma in_firstn {A : Type} (x : A) (n : nat) (l : list A) :
  In x (firstn n l) -> In x l.
Proof.
  intros H. rewrite <- (firstn_skipn n l). apply in_or_app. now left.
Qed.

Lemma in_expected_prompts (pr : PRDetails) (files : list File.t) (p : string) :
  In p (expected_prompts pr files) ->
  exists file chunk,
    In file files /\ is_dev_null (File.to file) = false
    /\ In chunk (File.chunks file) /\ p = create_prompt file chunk pr.
Proof.
  unfold expected_prompts. intros (file & Hin & Hp)%in_flat_map.
  destruct (is_dev_null (File.to file)) eqn:Hdel; [destruct Hp|].
  apply in_map_iff in Hp as (chunk & <- & Hc). eauto 6.
Qed.

(** The prompts of a run of [main] are prompts of the filtered diff. *)
Lemma main_prompts (w : collaborators) (t : trigger) (p : string) :
  In p (prompts (trace (snd (main w t initial)))) ->
  exists diff parsed,
    event_diff t = Some diff /\ parse_diff w diff = Ok parsed
    /\ In p (expected_prompts (pr_details t)
               (filtered_diff parsed (exclude_patterns (exclude t)))).
Proof.
  unfold main.
  destruct (event_diff t) as [diff|]; simpl; [|intros []].
  destruct (negb (PyStr.nonempty diff)); simpl; [intros []|].
  unfold bind, say, lift; simpl.
  destruct (parse_diff w diff) as [parsed|e] eqn:Ep; simpl; [|intros []].
  destruct (analyze_files_prompts w (pr_details t)
              (filtered_diff parsed (exclude_patterns (exclude t))) []
              (emit (EvParse diff) initial)) as (n & Hn & _).
  unfold analyze_code.
  assert (H : In p (prompts (trace (snd (analyze_files w (pr_details t)
                (filtered_diff parsed (exclude_patterns (exclude t))) []
                (emit (EvParse diff) initial))))) ->
              exists diff0 parsed0,
                Some diff = Some diff0 /\ parse_diff w diff0 = Ok parsed0
                /\ In p (expected_prompts (pr_details t)
                           (filtered_diff parsed0 (exclude_patterns (exclude t))))).
  { simpl in Hn. rewrite Hn. simpl. intros Hin%in_firstn. eauto. }
  destruct (analyze_files w (pr_details t)
              (filtered_diff parsed (exclude_patterns (exclude t))) []
              (emit (EvParse diff) initial)) as [[comments|e] st2]; simpl in *;
    [|exact H].
  destruct comments as [|c comments]; simpl; [exact H|].
  unfold create_review_comment, bind, say, lift; simpl.
  rewrite prompts_app. simpl. rewrite app_nil_r. exact H.
Qed.

(** X6: every prompt that a run of [main] sends is the prompt of a chunk
    of a file of the parsed diff that no pattern of [exclude] matches and
    that is not deleted: a file that is excluded is never shown to the
    language model. *)
Theorem main_prompts_only_for_kept_files (w : collaborators) (t : trigger) (p : string) :
  In p (prompts (trace (snd (main w t initial)))) ->
  exists diff parsed file chunk,
    event_diff t = Some diff /\ parse_diff w diff = Ok parsed
    /\ In file parsed
    /\ is_excluded (File.to file) (exclude_patterns (exclude t)) = false
    /\ File.to file <> Some dev_null
    /\ In chunk (File.chunks file)
    /\ p = create_prompt file chunk (pr_details t).
Proof.
  intros (diff & parsed & Hd & Hp & Hin)%main_prompts.
  apply in_expected_prompts in Hin as (file & chunk & Hf & Hdel & Hc & ->).
  unfold filtered_diff in Hf. apply filter_In in Hf as [Hf Hex].
  apply negb_true_iff in Hex.
  exists diff, parsed, file, chunk. repeat split; auto.
  intros E. rewrite E in Hdel. discriminate.
Qed.

Lemma main_prompts_only_for_kept_files_witness :
  exists diff parsed file chunk,
    event_diff (Sample.opened "diff --git a/src/a.py b/src/a.py" (Some "*.md"))
    = Some diff
    /\ parse_diff (Sample.service Sample.good_text (Some Sample.good_json)) diff
       = Ok parsed
    /\ In file parsed
    /\ is_excluded (File.to file) (exclude_patterns (Some "*.md")) = false
    /\ File.to file <> Some dev_null
    /\ In chunk (File.chunks file)
    /\ create_prompt Sample.added Sample.hunk Sample.pr
       = create_prompt file chunk Sample.pr.
Proof.
  apply (main_prompts_only_for_kept_files
           (Sample.service Sample.good_text (Some Sample.good_json))
           (Sample.opened "diff --git a/src/a.py b/src/a.py" (Some "*.md"))).
  simpl. auto.
Defined.

(** The star matches every name. *)
Lemma minimatch_star (name : string) : minimatch name "*" = true.
Proof.
  unfold minimatch, Fnmatch.fnmatch. change (Fnmatch.translate "*") with [Fnmatch.TStar].
  induction (list_ascii_of_string name) as [|c s IH].
  - reflexivity.
  - rewrite FnmatchFacts.matches_star, IH. apply orb_true_r.
Qed.

(** X7: when one of the patterns of [exclude] is the star, every file is
    filtered out, whatever its path: a run of [main] sends no prompt and
    submits nothing. *)
Theorem main_star_excludes_everything (w : collaborators) (t : trigger) :
  In "*" (exclude_patterns (exclude t)) ->
  (forall parsed, filtered_diff parsed (exclude_patterns (exclude t)) = [])
  /\ prompts (trace (snd (main w t initial))) = []
  /\ submissions (trace (snd (main w t initial))) = [].
Proof.
  intros Hstar.
  assert (Hall : forall parsed,
             filtered_diff parsed (exclude_patterns (exclude t)) = []).
  { intros parsed. unfold filtered_diff.
    induction parsed as [|file rest IH]; [reflexivity|]. simpl.
    assert (E : is_excluded (File.to file) (exclude_patterns (exclude t)) = true).
    { apply is_excluded_exists. exists "*". split; [exact Hstar|apply minimatch_star]. }
    now rewrite E. }
  split; [exact Hall|]. unfold main.
  destruct (event_diff t) as [diff|]; [|split; reflexivity].
  destruct (negb (PyStr.nonempty diff)); [split; reflexivity|].
  unfold bind, say, lift; simpl.
  destruct (parse_diff w diff) as [parsed|e]; [|split; reflexivity].
  rewrite Hall. split; reflexivity.
Qed.

Lemma main_star_excludes_everything_witness :
  In "*" (exclude_patterns (Some "docs/*, * ,*.md"))
  /\ prompts (trace (snd (main (Sample.service Sample.good_text (Some Sample.good_json))
                               (Sample.opened "diff --git a/src/a.py b/src/a.py"
                                              (Some "docs/*, * ,*.md"))
                               initial)))
     = [].
Proof.
  split; [simpl; auto|].
  apply (proj1 (proj2 (main_star_excludes_everything
                         (Sample.service Sample.good_text (Some Sample.good_json))
                         (Sample.opened "diff --git a/src/a.py b/src/a.py"
                                        (Some "docs/*, * ,*.md"))
                         ltac:(simpl; auto)))).
Defined.

(** ** Runs without comments *)

Section DeafModel.

Variable w : collaborators.
Hypothesis deaf : forall n prompt,
    undecodable w (create_chat_completion w n prompt) = true.

Lemma analyze_chunks_deaf file pr chunks comments st :
  fst (analyze_chunks w file pr chunks comments st) = Ok comments.
Proof.
  revert st. induction chunks as [|chunk rest IH]; intros st; [reflexivity|].
  simpl. unfold bind.
  assert (E : analyze_chunk w file pr chunk comments st
              = (Ok comments,
                 {| calls := S (calls st);
                    trace := trace st ++ [EvChat (create_prompt file chunk pr);
                                          EvLogError] |})).
  { unfold analyze_chunk, bind.
    now rewrite (get_ai_response_undecodable w _ st (deaf _ _)). }
  rewrite E. apply IH.
Qed.

Lemma analyze_files_deaf pr files comments st :
  fst (analyze_files w pr files comments st) = Ok comments.
Proof.
  revert st. induction files as [|file rest IH]; intros st; [reflexivity|].
  simpl. destruct (is_dev_null (File.to file)); [apply IH|].
  unfold bind.
  pose proof (analyze_chunks_deaf file pr (File.chunks file) comments st) as H.
  destruct (analyze_chunks w file pr (File.chunks file) comments st) as [r st1].
  simpl in H. subst r. apply IH.
Qed.

End DeafModel.

(** X8: with a language model none of whose replies can be decoded, be it
    that every call raises or that every reply is prose, [analyze_code]
    still asks about every chunk, returns no comment and raises nothing,
    and [main] returns without submitting whenever the diff is parsed. *)
Theorem undecodable_model_run (w : collaborators) :
  (forall n prompt, undecodable w (create_chat_completion w n prompt) = true) ->
  (forall files pr st,
      fst (analyze_code w files pr st) = Ok []
      /\ calls (snd (analyze_code w files pr st))
         = (calls st + List.length (expected_prompts pr files))%nat)
  /\ (forall t diff parsed,
         event_diff t = Some diff -> parse_diff w diff = Ok parsed ->
         fst (main w t initial) = Ok tt
         /\ submissions (trace (snd (main w t initial))) = []).
Proof.
  intros deaf. split.
  - intros files pr st.
    pose proof (analyze_files_deaf w deaf pr files [] st) as H.
    split; [exact H|]. unfold analyze_code in *.
    destruct (analyze_files_prompts w pr files [] st) as (n & _ & Hc & _ & Hn).
    rewrite Hc. f_equal. eapply Hn. exact H.
  - intros t diff parsed Hd Hp. unfold main. rewrite Hd.
    destruct (negb (PyStr.nonempty diff)); [split; reflexivity|].
    unfold bind, say, lift; simpl. rewrite Hp.
    pose proof (analyze_files_deaf w deaf (pr_details t)
                  (filtered_diff parsed (exclude_patterns (exclude t))) []
                  (emit (EvParse diff) initial)) as H.
    pose proof (analyze_files_quiet w (pr_details t)
                  (filtered_diff parsed (exclude_patterns (exclude t))) []
                  (emit (EvParse diff) initial)) as Hq.
    apply quiet_submissions in Hq. unfold analyze_code.
    destruct (analyze_files w (pr_details t)
                (filtered_diff parsed (exclude_patterns (exclude t))) []
                (emit (EvParse diff) initial)) as [r st2].
    simpl in H. subst r. simpl in *. split; [reflexivity|exact Hq].
Qed.

Lemma undecodable_model_run_witness :
  (forall n prompt,
      undecodable (Sample.service Sample.prose None)
                  (create_chat_completion (Sample.service Sample.prose None) n prompt)
      = true)
  /\ fst (analyze_code (Sample.service Sample.prose None)
                       [Sample.added; Sample.added] Sample.pr initial)
     = Ok [].
Proof.
  split; [reflexivity|].
  apply (proj1 (undecodable_model_run (Sample.service Sample.prose None)
                                      (fun _ _ => eq_refl))).
Defined.

Lemma analyze_files_nothing (w : collaborators) (pr : PRDetails)
      (files : list File.t) (comments : list comment) (st : state) :
  expected_prompts pr files = [] ->
  analyze_files w pr files comments st = (Ok comments, st).
Proof.
  induction files as [|file rest IH]; simpl; [reflexivity|].
  destruct (is_dev_null (File.to file)); [exact IH|].
  intros H. apply app_eq_nil in H as [Hc Hr].
  apply map_eq_nil in Hc. rewrite Hc. simpl. unfold bind, ret. now apply IH.
Qed.

(** X9: a diff in which every file is deleted or has no chunk gives
    [analyze_code] nothing to ask: it returns no comment in the state it
    started from, without a call of the language model. *)
Theorem analyze_code_nothing_to_review
        (w : collaborators) (files : list File.t) (pr : PRDetails) (st : state) :
  expected_prompts pr files = [] ->
  analyze_code w files pr st = (Ok [], st).
Proof. apply analyze_files_nothing. Qed.

Lemma analyze_code_nothing_to_review_witness :
  expected_prompts Sample.pr [Sample.deleted; File.mk (Some "renamed.py") []] = []
  /\ analyze_code (Sample.service Sample.good_text (Some Sample.good_json))
                  [Sample.deleted; File.mk (Some "renamed.py") []] Sample.pr initial
     = (Ok [], initial).
Proof.
  split; [reflexivity|].
  apply (analyze_code_nothing_to_review
           (Sample.service Sample.good_text (Some Sample.good_json))
           [Sample.deleted; File.mk (Some "renamed.py") []] Sample.pr initial eq_refl).
Defined.

(** ** Replies *)

(** X10: [get_ai_response] never raises; it makes one call, sends its
    prompt once, and logs an error exactly when the reply cannot be
    decoded, in which case it returns [None]. *)
Theorem get_ai_response_outcome (w : collaborators) (prompt : string) (st : state) :
  let failed := undecodable w (create_chat_completion w (calls st) prompt) in
  exists reviews,
    get_ai_response w prompt st
    = (Ok reviews,
       {| calls := S (calls st);
          trace := trace st ++ EvChat prompt :: (if failed then [EvLogError] else []) |})
    /\ (failed = true -> reviews = JNull).
Proof.
  intros failed. destruct failed eqn:E; subst failed.
  - exists JNull. split; [|reflexivity].
    now apply get_ai_response_undecodable.
  - unfold get_ai_response, decode_reviews. unfold undecodable in E.
    destruct (create_chat_completion w (calls st) prompt) as [|content];
      [discriminate|].
    destruct (json_loads w (reply_text content)) as [[| | | | | |members]|];
      try discriminate.
    unfold Py.subscript.
    destruct (Py.lookup "reviews" members) as [reviews|]; [|discriminate].
    exists reviews. split; [reflexivity|discriminate].
Qed.

Lemma reply_text_blank (content : string) :
  PyStr.isblank content = true -> reply_text content = "{}".
Proof.
  intros H. unfold reply_text. apply strip_blank in H. now rewrite H.
Qed.

(** X11: a reply that is empty or blank is decoded as the text of the
    empty object; that object has no reviews, so the reply is logged as an
    error and gives [None]. *)
Theorem get_ai_response_blank_reply
        (w : collaborators) (prompt content : string) (st : state) :
  create_chat_completion w (calls st) prompt = ChatContent content ->
  PyStr.isblank content = true ->
  json_loads w "{}" = Some (JObj []) ->
  get_ai_response w prompt st
  = (Ok JNull,
     {| calls := S (calls st); trace := trace st ++ [EvChat prompt; EvLogError] |}).
Proof.
  intros Hc Hb Hj. apply get_ai_response_undecodable.
  rewrite Hc. unfold undecodable. now rewrite (reply_text_blank _ Hb), Hj.
Qed.

Lemma get_ai_response_blank_reply_witness :
  PyStr.isblank (PyStr.join [" "; PyStr.nl]) = true
  /\ get_ai_response (Sample.service (PyStr.join [" "; PyStr.nl]) (Some (JObj [])))
                     "prompt" initial
     = (Ok JNull, {| calls := 1; trace := [EvChat "prompt"; EvLogError] |}).
Proof.
  split; [reflexivity|].
  apply (@get_ai_response_blank_reply
           (Sample.service (PyStr.join [" "; PyStr.nl]) (Some (JObj [])))
           "prompt" (PyStr.join [" "; PyStr.nl]) initial eq_refl eq_refl eq_refl).
Defined.

(** ** The mapper, read backwards *)

(** X12: when [create_comment] returns for a file with a path, the reply
    could be iterated over and the comments are those of its items, one for
    one and in order: each has the path of the file, the [reviewComment] of
    its item as body and the [lineNumber] of its item, coerced by [int], as
    line. *)
Theorem create_comment_inversion
        (file : File.t) (chunk : Chunk.t) (reviews : json) (cs : list comment) :
  Py.truthy_str (File.to file) = true ->
  create_comment file chunk reviews = Ok cs ->
  exists items,
    Py.iterate reviews = Ok items
    /\ List.length cs = List.length items
    /\ Forall2 (fun item c =>
                  path c = File.to file
                  /\ Py.subscript item "reviewComment" = Ok (body c)
                  /\ exists l, Py.subscript item "lineNumber" = Ok l
                               /\ Py.int l = Ok (line c))
               items cs.
Proof.
  intros Hto. unfold create_comment.
  destruct (Py.iterate reviews) as [items|e]; simpl; [|discriminate].
  intros H. exists items. split; [reflexivity|].
  assert (F : Forall2 (fun item c =>
                  path c = File.to file
                  /\ Py.subscript item "reviewComment" = Ok (body c)
                  /\ exists l, Py.subscript item "lineNumber" = Ok l
                               /\ Py.int l = Ok (line c))
               items cs).
  { revert cs H. induction items as [|item rest IH]; intros cs; simpl.
    - intros [= <-]. constructor.
    - rewrite Hto. unfold comment_of.
      destruct (Py.subscript item "reviewComment") as [b|e] eqn:Eb; simpl;
        [|discriminate].
      destruct (Py.subscript item "lineNumber") as [l|e] eqn:El; simpl;
        [|discriminate].
      destruct (Py.int l) as [n|e] eqn:En; simpl; [|discriminate].
      destruct (comments_of file rest) as [cs'|e]; simpl; [|discriminate].
      intros [= <-]. constructor; [|now apply IH].
      simpl. repeat split; eauto. }
  split; [|exact F]. symmetry. eapply Forall2_length. exact F.
Qed.

Lemma create_comment_inversion_witness :
  exists items,
    Py.iterate (JArr [Sample.item (JStr "5") "avoid X"]) = Ok items
    /\ List.length [{| body := JStr "avoid X"; path := Some "src/a.py"; line := 5 |}]
       = List.length items
    /\ Forall2 (fun item c =>
                  path c = File.to Sample.added
                  /\ Py.subscript item "reviewComment" = Ok (body c)
                  /\ exists l, Py.subscript item "lineNumber" = Ok l
                               /\ Py.int l = Ok (line c))
               items
               [{| body := JStr "avoid X"; path := Some "src/a.py"; line := 5 |}].
Proof.
  apply (@create_comment_inversion Sample.added Sample.hunk
           (JArr [Sample.item (JStr "5") "avoid X"])
           [{| body := JStr "avoid X"; path := Some "src/a.py"; line := 5 |}]
           eq_refl eq_refl).
Defined.

(** ** The patterns of [exclude] *)

Lemma split_nonempty (sep : ascii) (s : string) : PyStr.split sep s <> [].
Proof.
  destruct s as [|c r]; simpl; [discriminate|].
  destruct (Ascii.eqb c sep); [discriminate|].
  destruct (PyStr.split sep r); discriminate.
Qed.

(** Joining the fields with the separator gives the text back. *)
Lemma split_concat (sep : ascii) (s : string) :
  String.concat (String sep EmptyString) (PyStr.split sep s) = s.
Proof.
  induction s as [|c r IH]; simpl; [reflexivity|].
  pose proof (split_nonempty sep r) as Hne.
  destruct (Ascii.eqb c sep) eqn:E.
  - apply Ascii.eqb_eq in E. subst c.
    destruct (PyStr.split sep r) as [|h t]; [congruence|].
    simpl in *. now rewrite IH.
  - destruct (PyStr.split sep r) as [|h t]; [congruence|].
    destruct t as [|h' t]; simpl in *; now rewrite <- IH.
Qed.

Lemma split_fields (sep : ascii) (s : string) :
  Forall (fun field => forallb (fun c => negb (Ascii.eqb c sep))
                               (list_ascii_of_string field) = true)
         (PyStr.split sep s).
Proof.
  induction s as [|c r IH]; simpl; [repeat constructor|].
  destruct (Ascii.eqb c sep) eqn:E.
  - constructor; [reflexivity|exact IH].
  - destruct (PyStr.split sep r) as [|h t]; [repeat constructor; simpl; now rewrite E|].
    inversion IH; subst. constructor; [|assumption]. simpl. now rewrite E.
Qed.

Section StripShape.

Variable space : ascii -> bool.

Lemma lstrip_clean (s : string) : clean_start space (PyStr.lstrip_by space s) = true.
Proof.
  induction s as [|c r IH]; simpl; [reflexivity|].
  destruct (space c) eqn:E; [exact IH|]. simpl. now rewrite E.
Qed.

Lemma lstrip_of_clean (s : string) :
  clean_start space s = true -> PyStr.lstrip_by space s = s.
Proof.
  destruct s as [|c r]; simpl; [reflexivity|].
  intros H. apply negb_true_iff in H. now rewrite H.
Qed.

Lemma rstrip_clean (s : string) :
  clean_start space s = true -> clean_start space (PyStr.rstrip_by space s) = true.
Proof.
  destruct s as [|c r]; simpl; [reflexivity|]. intros H.
  destruct (PyStr.rstrip_by space r); simpl; [|exact H].
  apply negb_true_iff in H. rewrite H. simpl. now rewrite H.
Qed.

Lemma rstrip_idempotent (s : string) :
  PyStr.rstrip_by space (PyStr.rstrip_by space s) = PyStr.rstrip_by space s.
Proof.
  induction s as [|c r IH]; simpl; [reflexivity|].
  destruct (PyStr.rstrip_by space r) as [|d r'] eqn:E.
  - destruct (space c) eqn:Ec; simpl; [reflexivity|now rewrite Ec].
  - simpl in *. now rewrite IH.
Qed.

Lemma strip_by_idempotent (s : string) :
  PyStr.strip_by space (PyStr.strip_by space s) = PyStr.strip_by space s.
Proof.
  unfold PyStr.strip_by.
  rewrite (lstrip_of_clean (PyStr.rstrip_by space (PyStr.lstrip_by space s))).
  - apply rstrip_idempotent.
  - apply rstrip_clean, lstrip_clean.
Qed.

Variable keep : ascii -> bool.

Lemma lstrip_forallb (s : string) :
  forallb keep (list_ascii_of_string s) = true ->
  forallb keep (list_ascii_of_string (PyStr.lstrip_by space s)) = true.
Proof.
  induction s as [|c r IH]; simpl; [reflexivity|].
  intros H. destruct (space c); [|exact H].
  apply andb_true_iff in H as [_ H]. auto.
Qed.

Lemma rstrip_forallb (s : string) :
  forallb keep (list_ascii_of_string s) = true ->
  forallb keep (list_ascii_of_string (PyStr.rstrip_by space s)) = true.
Proof.
  induction s as [|c r IH]; simpl; [reflexivity|].
  intros H. apply andb_true_iff in H as [Hc Hr].
  destruct (PyStr.rstrip_by space r) as [|d r'] eqn:E.
  - destruct (space c); simpl; [reflexivity|now rewrite Hc].
  - simpl in *. rewrite Hc. now apply IH.
Qed.

End StripShape.

(** X13: the patterns are the fields of [exclude] between its commas, each
    stripped: there is at least one, joining the fields with commas gives
    the value of [exclude] back, no pattern holds a comma, and none starts
    or ends with white space (stripping it again changes nothing). *)
Theorem exclude_patterns_shape (exclude : option string) :
  let fields := PyStr.split ","%char (exclude_text exclude) in
  exclude_patterns exclude = map PyStr.strip fields
  /\ String.concat "," fields = exclude_text exclude
  /\ exclude_patterns exclude <> []
  /\ Forall (fun pattern => PyStr.strip pattern = pattern
                            /\ comma_free pattern = true)
            (exclude_patterns exclude).
Proof.
  intros fields. split; [reflexivity|split; [apply split_concat|split]].
  - unfold exclude_patterns. fold (exclude_text exclude). fold fields.
    pose proof (split_nonempty ","%char (exclude_text exclude)) as H.
    fold fields in H. destruct fields; [congruence|discriminate].
  - unfold exclude_patterns. fold (exclude_text exclude). fold fields.
    pose proof (split_fields ","%char (exclude_text exclude)) as H.
    fold fields in H. induction H as [|field rest Hf _ IH]; simpl; constructor.
    + split; [apply strip_by_idempotent|].
      unfold comma_free, PyStr.strip, PyStr.strip_by.
      now apply rstrip_forallb, lstrip_forallb.
    + exact IH.
Qed.

(** ** Patterns without brackets *)

Lemma chars_app (a b : string) :
  list_ascii_of_string (a ++ b)
  = list_ascii_of_string a ++ list_ascii_of_string b.
Proof. induction a as [|c a IH]; simpl; [reflexivity|now rewrite IH]. Qed.

Lemma chars_inj (a b : string) :
  list_ascii_of_string a = list_ascii_of_string b -> a = b.
Proof.
  intros H. rewrite <- (string_of_list_ascii_of_string a),
              <- (string_of_list_ascii_of_string b). now rewrite H.
Qed.

Lemma chars_of_list (l : list ascii) :
  list_ascii_of_string (string_of_list_ascii l) = l.
Proof. apply list_ascii_of_string_of_list_ascii. Qed.

Module LiteralFacts.
Import Fnmatch.

Lemma plain_translate (c : ascii) (rest : chars) :
  plain c = true ->
  translate_from 0 (c :: rest) = TLit c :: translate_from 0 rest.
Proof.
  unfold plain. intros H. apply negb_true_iff in H.
  apply orb_false_iff in H as [H H3]. apply orb_false_iff in H as [H1 H2].
  simpl. now rewrite H1, H2, H3.
Qed.

(** Plain characters are translated one for one, whatever follows. *)
Lemma translate_plain_prefix (p rest : chars) :
  forallb plain p = true ->
  translate_from 0 (p ++ rest) = map TLit p ++ translate_from 0 rest.
Proof.
  induction p as [|c p IH]; simpl app; [reflexivity|].
  intros H. apply andb_true_iff in H as [Hc Hp].
  rewrite plain_translate by exact Hc. simpl. now rewrite IH.
Qed.

Lemma translate_plain (p : chars) :
  forallb plain p = true -> translate_from 0 p = map TLit p.
Proof.
  intros H. rewrite <- (app_nil_r p) at 1.
  rewrite translate_plain_prefix by exact H. simpl. apply app_nil_r.
Qed.

(** Literal pieces match their own characters and go on. *)
Lemma matches_lits (p : chars) (ts : list tok) (s : chars) :
  matches (map TLit p ++ ts) s = true
  <-> exists rest, s = p ++ rest /\ matches ts rest = true.
Proof.
  revert s. induction p as [|c p IH]; intros s; simpl app.
  - split; [eauto|]. now intros (rest & -> & H).
  - change (map TLit (c :: p) ++ ts) with (TLit c :: (map TLit p ++ ts)).
    rewrite FnmatchFacts.matches_one by discriminate.
    destruct s as [|d s].
    + split; [discriminate|]. intros (rest & E & _). discriminate.
    + simpl. rewrite andb_true_iff, IH, Ascii.eqb_eq. split.
      * intros (-> & rest & -> & H). eauto.
      * intros (rest & [= -> ->] & H). eauto.
Qed.

Lemma matches_star_only (s : chars) : matches [TStar] s = true.
Proof.
  induction s as [|c s IH]; [reflexivity|].
  rewrite FnmatchFacts.matches_star, IH. apply orb_true_r.
Qed.

End LiteralFacts.

(** X14: a pattern without star, question mark and opening bracket matches
    the path that is equal to it and no other. *)
Theorem minimatch_literal (name pat : string) :
  literal pat = true ->
  (minimatch name pat = true <-> name = pat).
Proof.
  intros H. unfold minimatch, Fnmatch.fnmatch, Fnmatch.translate.
  rewrite LiteralFacts.translate_plain by exact H.
  rewrite <- (app_nil_r (map Fnmatch.TLit _)), LiteralFacts.matches_lits. split.
  - intros (rest & E & Hm). destruct rest; [|discriminate].
    rewrite app_nil_r in E. now apply chars_inj.
  - intros ->. exists []. now rewrite app_nil_r.
Qed.

Lemma minimatch_literal_witness :
  literal "docs/README.md" = true
  /\ minimatch "docs/README.md" "docs/README.md" = true.
Proof.
  split; [reflexivity|].
  apply (proj2 (@minimatch_literal "docs/README.md" "docs/README.md" eq_refl)).
  reflexivity.
Defined.

(** X15: a pattern made of a literal prefix and a star matches the paths
    that start with the prefix, slashes after it included: dist/* excludes
    every file below dist, at any depth. *)
Theorem minimatch_prefix_star (name prefix : string) :
  literal prefix = true ->
  (minimatch name (prefix ++ "*") = true <-> exists rest, name = (prefix ++ rest)%string).
Proof.
  intros H. unfold minimatch, Fnmatch.fnmatch, Fnmatch.translate.
  rewrite chars_app, LiteralFacts.translate_plain_prefix by exact H.
  change (Fnmatch.translate_from 0 (list_ascii_of_string "*")) with [Fnmatch.TStar].
  rewrite LiteralFacts.matches_lits. split.
  - intros (rest & E & _). exists (string_of_list_ascii rest).
    apply chars_inj. now rewrite chars_app, chars_of_list.
  - intros (rest & ->). exists (list_ascii_of_string rest).
    split; [apply chars_app|apply LiteralFacts.matches_star_only].
Qed.

Lemma minimatch_prefix_star_witness :
  literal "dist/" = true /\ minimatch "dist/js/vendor/bundle.js" "dist/*" = true.
Proof.
  split; [reflexivity|].
  apply (proj2 (@minimatch_prefix_star "dist/js/vendor/bundle.js" "dist/" eq_refl)).
  exists "js/vendor/bundle.js". reflexivity.
Defined.

(** X16: a pattern made of a star and a literal suffix matches the paths
    that end with the suffix, in whatever directory: *.md excludes
    docs/guide.md as it excludes README.md. *)
Theorem minimatch_star_suffix (name suffix : string) :
  literal suffix = true ->
  (minimatch name ("*" ++ suffix) = true <-> exists run, name = (run ++ suffix)%string).
Proof.
  intros H. unfold minimatch, Fnmatch.fnmatch, Fnmatch.translate.
  assert (E : Fnmatch.translate_from 0 (list_ascii_of_string ("*" ++ suffix))
              = Fnmatch.TStar :: map Fnmatch.TLit (list_ascii_of_string suffix)).
  { simpl. rewrite LiteralFacts.translate_plain by exact H.
    destruct (list_ascii_of_string suffix); reflexivity. }
  rewrite E, FnmatchFacts.matches_star_split. split.
  - intros (run & rest & Hn & Hm).
    rewrite <- (app_nil_r (map Fnmatch.TLit _)) in Hm.
    apply LiteralFacts.matches_lits in Hm as (tail & -> & Ht).
    destruct tail; [|discriminate]. rewrite app_nil_r in Hn.
    exists (string_of_list_ascii run). apply chars_inj.
    now rewrite chars_app, chars_of_list.
  - intros (run & ->). exists (list_ascii_of_string run), (list_ascii_of_string suffix).
    split; [apply chars_app|].
    rewrite <- (app_nil_r (map Fnmatch.TLit _)). apply LiteralFacts.matches_lits.
    exists []. now rewrite app_nil_r.
Qed.

Lemma minimatch_star_suffix_witness :
  literal ".md" = true /\ minimatch "docs/guide.md" "*.md" = true.
Proof.
  split; [reflexivity|].
  apply (proj2 (@minimatch_star_suffix "docs/guide.md" ".md" eq_refl)).
  exists "docs/guide". reflexivity.
Defined.

(** ** Line numbers, written and read *)

Module DigitFacts.
Import Decimal.

Lemma digits_step (c : ascii) (acc : Z) (rest : string) :
  Py.isdigit c = true ->
  Py.digits acc (String c rest) = Py.digits (10 * acc + Py.digit_value c) rest.
Proof. intros H. simpl. now rewrite H. Qed.

Ltac digit_value :=
  match goal with
  | |- context [Py.digit_value ?c] =>
      let v := eval vm_compute in (Py.digit_value c) in
      change (Py.digit_value c) with v
  end.

(** The digits after an accumulator that is positive. *)
Lemma digits_acc (d : uint) (p : positive) :
  Py.digits (Z.pos p) (NilEmpty.string_of_uint d) = Some (Z.pos (Pos.of_uint_acc d p)).
Proof.
  revert p. induction d; intros p; simpl NilEmpty.string_of_uint;
    [reflexivity|..];
    rewrite digits_step by reflexivity; cbn [Pos.of_uint_acc];
    rewrite <- IHd; f_equal; digit_value; lia.
Qed.

Lemma digits_zero (d : uint) :
  Py.digits 0 (NilEmpty.string_of_uint d) = Some (Z.of_N (Pos.of_uint d)).
Proof.
  induction d; simpl NilEmpty.string_of_uint; [reflexivity|..];
    rewrite digits_step by reflexivity; digit_value; cbn [Pos.of_uint Z.of_N];
    try exact IHd; rewrite <- digits_acc; reflexivity.
Qed.

Lemma unsigned_uint (d : uint) :
  d <> Nil ->
  Py.unsigned (NilEmpty.string_of_uint d) = Some (Z.of_N (Pos.of_uint d)).
Proof.
  intros H. rewrite <- digits_zero. destruct d; [congruence|..]; reflexivity.
Qed.

Lemma uint_no_space (d : uint) :
  forallb (fun c => negb (Py.int_space c))
          (list_ascii_of_string (NilEmpty.string_of_uint d)) = true.
Proof. induction d; simpl; auto. Qed.

End DigitFacts.

Section StripNothing.

Variable space : ascii -> bool.

Lemma lstrip_nothing (s : string) :
  forallb (fun c => negb (space c)) (list_ascii_of_string s) = true ->
  PyStr.lstrip_by space s = s.
Proof.
  destruct s as [|c r]; simpl; [reflexivity|].
  intros H. apply andb_true_iff in H as [H _]. apply negb_true_iff in H.
  now rewrite H.
Qed.

Lemma rstrip_nothing (s : string) :
  forallb (fun c => negb (space c)) (list_ascii_of_string s) = true ->
  PyStr.rstrip_by space s = s.
Proof.
  induction s as [|c r IH]; simpl; [reflexivity|].
  intros H. apply andb_true_iff in H as [Hc Hr]. apply negb_true_iff in Hc.
  rewrite (IH Hr), Hc. now destruct r.
Qed.

Lemma strip_nothing (s : string) :
  forallb (fun c => negb (space c)) (list_ascii_of_string s) = true ->
  PyStr.strip_by space s = s.
Proof.
  intros H. unfold PyStr.strip_by. now rewrite lstrip_nothing, rstrip_nothing.
Qed.

End StripNothing.

Module CapFacts.
Import Decimal.

Lemma digit_count_step (c : ascii) (rest : string) :
  Py.isdigit c = true -> Py.digit_count (String c rest) = (1 + Py.digit_count rest)%Z.
Proof. intros H. simpl. now rewrite H. Qed.

(** The text of a number has as many digits as the number. *)
Lemma digit_count_uint (d : uint) :
  Py.digit_count (NilEmpty.string_of_uint d) = Z.of_nat (nb_digits d).
Proof.
  induction d; simpl NilEmpty.string_of_uint; [reflexivity|..];
    rewrite digit_count_step by reflexivity; rewrite IHd; cbn [nb_digits]; lia.
Qed.

(** Digits read after an accumulator leave it at least as many places to
    the left. *)
Lemma of_uint_acc_lower (d : uint) (q : positive) :
  (Z.pos q * 10 ^ Z.of_nat (nb_digits d) <= Z.pos (Pos.of_uint_acc d q))%Z.
Proof.
  revert q. induction d; intros q; cbn [Pos.of_uint_acc nb_digits];
    [simpl; lia|..];
    rewrite Nat2Z.inj_succ, Z.pow_succ_r by lia;
    match goal with
    | |- (_ <= Z.pos (Pos.of_uint_acc _ ?acc))%Z =>
        pose proof (IHd acc) as H;
        pose proof (Z.pow_nonneg 10 (Z.of_nat (nb_digits d)) ltac:(lia)) as Hp;
        nia
    end.
Qed.

(** The text of a positive number does not start with a zero. *)
Lemma to_uint_head (p : positive) (u : uint) : Pos.to_uint p <> D0 u.
Proof.
  intros E.
  pose proof (DecimalPos.Unsigned.to_of (Pos.to_uint p)) as H.
  rewrite DecimalPos.Unsigned.of_to in H. simpl N.to_uint in H.
  rewrite E, DecimalFacts.unorm_D0 in H.
  destruct u as [| | | | | | | | | |]; try
    (match type of H with
     | D0 ?v = _ =>
         pose proof (DecimalFacts.nb_digits_unorm v ltac:(discriminate)) as Hn;
         rewrite <- H in Hn; cbn [nb_digits] in Hn; lia
     end).
  apply (DecimalPos.Unsigned.to_uint_nonzero p). exact E.
Qed.

(** A number below ten to the cap is written with no more digits than the
    cap. *)
Lemma digit_count_pos (p : positive) :
  (Z.pos p < 10 ^ Py.max_str_digits)%Z ->
  (Py.digit_count (NilEmpty.string_of_uint (Pos.to_uint p)) <= Py.max_str_digits)%Z.
Proof.
  intros Hp. rewrite digit_count_uint.
  pose proof (DecimalPos.Unsigned.of_to p) as Hof.
  pose proof (@to_uint_head p) as Hhead.
  pose proof (DecimalPos.Unsigned.to_uint_nonnil p) as Hnil.
  destruct (Pos.to_uint p) as [|u|u|u|u|u|u|u|u|u|u];
    [congruence | exfalso; now apply (Hhead u) |..];
    cbn [Pos.of_uint] in Hof; injection Hof as Hof;
    match type of Hof with
    | Pos.of_uint_acc _ ?k = _ => pose proof (of_uint_acc_lower u k) as Hlow
    end;
    rewrite Hof in Hlow; cbn [nb_digits]; rewrite Nat2Z.inj_succ;
    assert (Hlt : (10 ^ Z.of_nat (nb_digits u) < 10 ^ Py.max_str_digits)%Z)
      by (pose proof (Z.pow_nonneg 10 (Z.of_nat (nb_digits u)) ltac:(lia)); nia);
    apply Z.pow_lt_mono_r_iff in Hlt; unfold Py.max_str_digits in *; lia.
Qed.

End CapFacts.

(** [int] reads back what [str] writes, below the cap on digits. *)
Lemma int_of_str_of_Z (n : Z) :
  (Z.abs n < 10 ^ Py.max_str_digits)%Z -> Py.int_of_str (PyStr.of_Z n) = Some n.
Proof.
  intros Hn. unfold Py.int_of_str, PyStr.of_Z.
  destruct n as [|p|p]; [reflexivity|..]; simpl Z.to_int;
    simpl NilZero.string_of_int; unfold NilZero.string_of_uint;
    pose proof (DecimalPos.Unsigned.to_uint_nonnil p) as Hnil;
    pose proof (DecimalPos.Unsigned.of_to p) as Hof;
    pose proof (DigitFacts.unsigned_uint Hnil) as Hu;
    pose proof (DigitFacts.uint_no_space (Pos.to_uint p)) as Hs;
    pose proof (@CapFacts.digit_count_pos p Hn) as Hc;
    apply Z.ltb_ge in Hc;
    rewrite Hof in Hu;
    replace (match Pos.to_uint p with Decimal.Nil => "0" | _ => _ end)
      with (NilEmpty.string_of_uint (Pos.to_uint p))
      by (destruct (Pos.to_uint p); congruence || reflexivity).
  - rewrite strip_nothing by exact Hs. rewrite Hc.
    destruct (Pos.to_uint p); [congruence|..]; exact Hu.
  - rewrite strip_nothing by (simpl; exact Hs).
    change (Py.digit_count (String "-" ?s)) with (Py.digit_count s).
    rewrite Hc, Hu. reflexivity.
Qed.

(** X17: a line number comes back as it went out: whether the reply gives
    it as a number or, for a number within the cap of the interpreter on
    digits, as the decimal text that [create_prompt] shows for it, the
    comment is on that line. *)
Theorem comment_of_written_line (file : File.t) (item b : json) (n : Z) :
  Py.subscript item "reviewComment" = Ok b ->
  Py.subscript item "lineNumber" = Ok (JInt n)
  \/ ((Z.abs n < 10 ^ Py.max_str_digits)%Z
      /\ Py.subscript item "lineNumber" = Ok (JStr (PyStr.of_Z n))) ->
  comment_of file item = Ok {| body := b; path := File.to file; line := n |}.
Proof.
  intros Hb [Hl | [Hn Hl]]; unfold comment_of; rewrite Hb, Hl; simpl;
    [reflexivity|].
  now rewrite int_of_str_of_Z.
Qed.

Lemma comment_of_written_line_witness :
  (Z.abs 42 < 10 ^ Py.max_str_digits)%Z
  /\ Py.str_of_optZ (change_line (Change.mk (Some 42%Z) None "+x")) = "42"
  /\ comment_of Sample.added (Sample.item (JStr "42") "avoid X")
     = Ok {| body := JStr "avoid X"; path := Some "src/a.py"; line := 42 |}.
Proof.
  split; [reflexivity|split; [reflexivity|]].
  apply (@comment_of_written_line Sample.added (Sample.item (JStr "42") "avoid X")
           (JStr "avoid X") 42 eq_refl (or_intror (conj eq_refl eq_refl))).
Defined.

(** ** Runs that fail *)

(** X18: an exception of [parse_diff] or of [analyze_code] is the
    exception of [main], and nothing is submitted: the comments gathered
    before the chunk whose reply could not be mapped are lost with it. *)
Theorem main_failure_before_submission
        (w : collaborators) (t : trigger) (diff : string) (e : exn) :
  event_diff t = Some diff ->
  PyStr.nonempty diff = true ->
  parse_diff w diff = Raise e
  \/ (exists parsed,
         parse_diff w diff = Ok parsed
         /\ fst (analyze_code w (filtered_diff parsed (exclude_patterns (exclude t)))
                              (pr_details t) (emit (EvParse diff) initial))
            = Raise e) ->
  fst (main w t initial) = Raise e
  /\ submissions (trace (snd (main w t initial))) = [].
Proof.
  intros Hd Hne H. unfold main. rewrite Hd, Hne. simpl.
  unfold bind, say, lift; simpl.
  destruct H as [Hp | (parsed & Hp & Ha)]; rewrite Hp; simpl.
  - auto.
  - pose proof (analyze_files_quiet w (pr_details t)
                  (filtered_diff parsed (exclude_patterns (exclude t))) []
                  (emit (EvParse diff) initial)) as Hq.
    apply quiet_submissions in Hq. unfold analyze_code in *.
    destruct (analyze_files w (pr_details t)
                (filtered_diff parsed (exclude_patterns (exclude t))) []
                (emit (EvParse diff) initial)) as [r st2].
    simpl in *. subst r. simpl. split; [reflexivity|exact Hq].
Qed.

Lemma main_failure_before_submission_witness :
  fst (analyze_chunk Sample2.service Sample2.two_hunks Sample.pr Sample.hunk []
                     (emit (EvParse "diff --git a/src/a.py b/src/a.py") initial))
  = Ok [{| body := JStr "avoid X"; path := Some "src/a.py"; line := 5 |}]
  /\ fst (main Sample2.service
               (Sample.opened "diff --git a/src/a.py b/src/a.py" None) initial)
     = Raise ValueError
  /\ submissions (trace (snd (main Sample2.service
                                   (Sample.opened "diff --git a/src/a.py b/src/a.py" None)
                                   initial)))
     = [].
Proof.
  split; [reflexivity|].
  apply (@main_failure_before_submission
           Sample2.service (Sample.opened "diff --git a/src/a.py b/src/a.py" None)
           "diff --git a/src/a.py b/src/a.py" ValueError eq_refl eq_refl).
  right. exists [Sample2.two_hunks]. split; reflexivity.
Defined.
